(** * Regolith compression under a wheel: density_and_bearing_cap.py

    A shallow embedding of [density_and_bearing_cap.py]: the scenario
    selection, the profile generator, the compression loop and the
    layout that the rendering part computes, with the properties of the
    specification that concern them and further properties read off
    the code.

    Numbers.  The script computes with Python ints and floats.  They are
    modelled here by the rationals [Q], with exact arithmetic: a float
    literal such as [1.89] is the rational 189/100, [x ** 2] is [x ^ 2],
    and the comparisons are the decidable comparisons of [Q].  Rounding
    is therefore not part of the model.  [math.tan (math.radians 5)] is
    not a rational function; its value is the parameter [force_spread].

    Errors.  A division whose divisor may be zero raises
    [ZeroDivisionError], a list index out of range raises [IndexError],
    an unbound global name raises [NameError].  They are the [Raised]
    results of the [Outcome] monad below.

    Output.  The progress lines that the loops print carry formatted
    floats and play no part in the results; only the literal line of the
    scenario selection is kept, where it is the diagnostic of a failed
    run. *)

From Stdlib Require Import String QArith ZArith Lia Lqa List Sorted Bool.
Import ListNotations.

Local Open Scope Q_scope.

(** ** Python exceptions and the error monad *)

Inductive PyExn : Type :=
| ZeroDivisionError
| IndexError
| NameError (name : string).

Inductive Outcome (A : Type) : Type :=
| Ok (a : A)
| Raised (e : PyExn).

Arguments Ok {A} a.
Arguments Raised {A} e.

Definition bind {A B : Type} (m : Outcome A) (k : A -> Outcome B) : Outcome B :=
  match m with
  | Ok a => k a
  | Raised e => Raised e
  end.

Notation "x <- m ;; k" := (bind m (fun x => k))
  (at level 61, m at next level, right associativity).

(** [x / y] on Python numbers. *)
Definition py_div (x y : Q) : Outcome Q :=
  if Qeq_bool y 0 then Raised ZeroDivisionError else Ok (x / y).

(** [l [ i ]] for an index [i >= 0]. *)
Definition py_index {A : Type} (l : list A) (i : nat) : Outcome A :=
  match nth_error l i with
  | Some a => Ok a
  | None => Raised IndexError
  end.

(** [x < y] as a test. *)
Definition Qlt_bool (x y : Q) : bool := negb (Qle_bool y x).

(** The value of a depth (a Python int) in float arithmetic. *)
Definition of_depth (depth : nat) : Q := inject_Z (Z.of_nat depth).

(** ** Constants of the model (lines 37-39, 77, 90, 100-101) *)

Definition min_density : Q := 1.101.
Definition max_density : Q := 1.818.
Definition density_range : Q := max_density - min_density.

Definition lunar_gravity : Q := 1.6.
Definition grain_density : Q := 2.0.
Definition min_bearing_cap : Q := 0.03.
Definition bearing_per_cm : Q := 65.0 / 30.

(** ** Scenario selection (lines 52-73) *)

Record VehicleConfig : Type := {
  vehicle_name    : string;
  mass_of_vehicle : Q;
  wheel_width     : Q;
  n_wheels        : Q
}.

Definition moon_buggy : VehicleConfig :=
  {| vehicle_name := "Apollo Rover";
     mass_of_vehicle := 660;
     wheel_width := 15;
     n_wheels := 4 |}.

Definition ppl : VehicleConfig :=
  {| vehicle_name := "PP&L Bulldozer";
     mass_of_vehicle := 6000;
     wheel_width := 10;
     n_wheels := 4 |}.

(** The [if / elif / else] on [scenario].  The result carries the lines
    printed on the way.  In the [else] branch the script prints its
    message and then evaluates [sys.exit ( 1 )]; the module [sys] is not
    among the imports of lines 3-9, so looking the name up raises
    [NameError] before any exit call is made. *)
Definition select_scenario (scenario : string) : list string * Outcome VehicleConfig :=
  if String.eqb scenario "Moon_Buggy" then ([], Ok moon_buggy)
  else if String.eqb scenario "PP&L" then ([], Ok ppl)
  else (["Bad scenario!"%string], Raised (NameError "sys")).

(** ** Profile generator (lines 104-127) *)

(** [depth] ranges over [range(max_depth)], so [depth + 2.9] is positive
    and the division cannot raise. *)
Definition density_and_bearing_cap_at_depth (depth : nat) : Q * Q :=
  let density := 1.89 * (of_depth depth + 1.69) / (of_depth depth + 2.9) in
  let bearing_cap := min_bearing_cap + of_depth depth * bearing_per_cm in
  (density, bearing_cap).

(** [range(n)] *)
Definition range (n : nat) : list nat := seq 0 n.

(** The two arrays [density] and [bearing_cap], filled by the loop of
    lines 123-127, one [append] each per depth. *)
Definition fill_profile (depths : list nat) (arrays : list Q * list Q)
  : list Q * list Q :=
  fold_left
    (fun '(density, bearing_cap) depth =>
       let '(d, c) := density_and_bearing_cap_at_depth depth in
       (density ++ [d], bearing_cap ++ [c]))
    depths arrays.

Definition profile (max_depth : nat) : list Q * list Q :=
  fill_profile (range max_depth) ([], []).

(** ** Compression loop (lines 132-197) *)

(** The module-level names that the loop reads and never assigns. *)
Record Globals : Type := {
  vehicle         : VehicleConfig;
  force_per_wheel : Q;
  force_spread    : Q;
  max_depth       : nat;
  density         : list Q;
  bearing_cap     : list Q
}.

(** A compressed layer is the tuple
    [(support_footprint_edge, new_layer_thickness, downward_force)]. *)
Definition CompressedLayer : Type := (Q * Q * Q)%type.

Definition layer_edge (l : CompressedLayer) : Q := fst (fst l).
Definition layer_thickness (l : CompressedLayer) : Q := snd (fst l).
Definition layer_pressure (l : CompressedLayer) : Q := snd l.

(** The module-level variables that the loop assigns. *)
Record LoopState : Type := {
  total_compression        : Q;
  first_uncompressed_layer : nat;
  max_pressure             : Q;
  min_pressure             : Q;
  support_footprint_edge   : Q;
  compressed_layers        : list CompressedLayer
}.

(** How an iteration ends: it falls through to the next one, or leaves
    the loop by [break]. *)
Inductive Flow : Type := Continue | Break.

(** Lines 152-156. *)
Definition initial_state (G : Globals) : LoopState :=
  {| total_compression        := 0.0;
     first_uncompressed_layer := 0;
     max_pressure             := 0;
     min_pressure             := 10000;
     support_footprint_edge   := wheel_width (vehicle G);
     compressed_layers        := [] |}.

(** Lines 159-197: one iteration, at [depth]. *)
Definition loop_body (G : Globals) (depth : nat) (st : LoopState)
  : Outcome (Flow * LoopState) :=
  downward_force <- py_div (force_per_wheel G) (support_footprint_edge st ^ 2) ;;
  let max_pressure' :=
    if Qlt_bool (max_pressure st) downward_force
    then downward_force else max_pressure st in
  let min_pressure' :=
    if Qlt_bool downward_force (min_pressure st)
    then downward_force else min_pressure st in
  support <- py_index (bearing_cap G) depth ;;
  if Qle_bool downward_force support then
    Ok (Break,
        {| total_compression        := total_compression st;
           first_uncompressed_layer := depth;
           max_pressure             := max_pressure';
           min_pressure             := min_pressure';
           support_footprint_edge   := support_footprint_edge st;
           compressed_layers        := compressed_layers st |})
  else
    pre_collapse_density <- py_index (density G) depth ;;
    let new_layer_thickness := pre_collapse_density / grain_density in
    Ok (Continue,
        {| total_compression        :=
             total_compression st + (1.0 - new_layer_thickness);
           first_uncompressed_layer := first_uncompressed_layer st;
           max_pressure             := max_pressure';
           min_pressure             := min_pressure';
           support_footprint_edge   :=
             support_footprint_edge st + 2 * force_spread G;
           compressed_layers        :=
             compressed_layers st
               ++ [(support_footprint_edge st, new_layer_thickness, downward_force)] |}).

(** [for depth in depths : ...], with [break]. *)
Fixpoint for_depths (G : Globals) (depths : list nat) (st : LoopState)
  : Outcome LoopState :=
  match depths with
  | [] => Ok st
  | depth :: rest =>
      match loop_body G depth st with
      | Raised e => Raised e
      | Ok (Break, st') => Ok st'
      | Ok (Continue, st') => for_depths G rest st'
      end
  end.

(** Lines 152-197. *)
Definition compress (G : Globals) : Outcome LoopState :=
  for_depths G (range (max_depth G)) (initial_state G).

(** ** The script up to the rendering (lines 52-197) *)

(** Lines 77-127, for the vehicle selected.  [force_spread] stands for
    the value of [math.tan(math.radians(angle_of_force_spread))]. *)
Definition globals (cfg : VehicleConfig) (force_spread : Q) (max_depth : nat)
  : Outcome Globals :=
  let force_to_support := mass_of_vehicle cfg * lunar_gravity in
  force_per_wheel <- py_div force_to_support (n_wheels cfg) ;;
  let '(density, bearing_cap) := profile max_depth in
  Ok {| vehicle         := cfg;
        force_per_wheel := force_per_wheel;
        force_spread    := force_spread;
        max_depth       := max_depth;
        density         := density;
        bearing_cap     := bearing_cap |}.

(** What the rendering part of the script is handed: every global and
    the variables as the loop left them. *)
Definition simulate (cfg : VehicleConfig) (force_spread : Q) (max_depth : nat)
  : Outcome (Globals * LoopState) :=
  G <- globals cfg force_spread max_depth ;;
  st <- compress G ;;
  Ok (G, st).

(** The script, with [scenario] as set on lines 53-54 and with
    [max_depth = 30] (line 119), down to line 197.  The image is written
    by the last statements of the rendering part (lines 331-334), which
    run only after all of this has returned [Ok]. *)
Definition script (scenario : string) (force_spread : Q)
  : list string * Outcome (Globals * LoopState) :=
  match select_scenario scenario with
  | (out, Raised e) => (out, Raised e)
  | (out, Ok cfg) => (out, simulate cfg force_spread 30)
  end.

(** The exit status of the interpreter when the script stops at the
    stage modelled: an exception that nothing catches ends the process
    with a traceback and status 1. *)
Definition exit_status {A : Type} (o : Outcome A) : option Z :=
  match o with
  | Raised _ => Some 1%Z
  | Ok _ => None
  end.

(** Whether the statements after line 197, the rendering part, are
    executed at all.  The image file is written by them and by nothing
    before them. *)
Definition runs_rendering {A : Type} (o : Outcome A) : bool :=
  match o with
  | Ok _ => true
  | Raised _ => false
  end.

(** ** The quantities of the loop, depth by depth

    The value of [support_footprint_edge] on entry to the iteration at
    depth [k] when every shallower depth has collapsed, the
    [downward_force] computed there, and the layer appended if that
    depth collapses too. *)
Definition edge_at (G : Globals) (k : nat) : Q :=
  Nat.iter k (fun edge => edge + 2 * force_spread G) (wheel_width (vehicle G)).

Definition pressure_at (G : Globals) (k : nat) : Q :=
  force_per_wheel G / (edge_at G k ^ 2).

Definition layer_at (G : Globals) (k : nat) : CompressedLayer :=
  (edge_at G k, nth k (density G) 0 / grain_density, pressure_at G k).

(** The iteration at depth [k] runs without an exception and the
    layer collapses: [support < downward_force]. *)
Definition collapses_at (G : Globals) (k : nat) : Prop :=
  ~ edge_at G k ^ 2 == 0 /\
  (k < length (density G))%nat /\
  exists support,
    nth_error (bearing_cap G) k = Some support /\ support < pressure_at G k.

(** The iteration at depth [k] runs without an exception and the
    load is supported: [support >= downward_force]. *)
Definition supported_at (G : Globals) (k : nat) : Prop :=
  ~ edge_at G k ^ 2 == 0 /\
  exists support,
    nth_error (bearing_cap G) k = Some support /\ pressure_at G k <= support.

(** A state that the loop can be in on entry to the iteration at depth
    [k]: the layers of the depths above have been appended and the
    footprint has grown [k] times. *)
Definition entry_state (G : Globals) (k : nat) (st : LoopState) : Prop :=
  support_footprint_edge st = edge_at G k /\
  compressed_layers st = map (layer_at G) (seq 0 k).

(** The updates of [max_pressure] and [min_pressure] (lines 164-167),
    and a state whose two extremes are those of the downward forces of
    the depths [0 .. c-1], starting from the initial 0 and 10000. *)
Definition update_max (m p : Q) : Q := if Qlt_bool m p then p else m.
Definition update_min (m p : Q) : Q := if Qlt_bool p m then p else m.

Definition extremes_upto (G : Globals) (c : nat) (st : LoopState) : Prop :=
  max_pressure st = fold_left update_max (map (pressure_at G) (seq 0 c)) 0 /\
  min_pressure st = fold_left update_min (map (pressure_at G) (seq 0 c)) 10000.

(** [G'] holds what [G] holds in everything an execution of the loop
    reads when it visits the depths [0 .. d] and collapses none but
    [0 .. d-1]: the scalars, the bearing capacities of [0 .. d] and the
    densities of [0 .. d-1]. *)
Definition same_down_to (d : nat) (G G' : Globals) : Prop :=
  wheel_width (vehicle G') = wheel_width (vehicle G) /\
  force_per_wheel G' = force_per_wheel G /\
  force_spread G' = force_spread G /\
  (forall k, (k <= d)%nat ->
     nth_error (bearing_cap G') k = nth_error (bearing_cap G) k) /\
  (forall k, (k < d)%nat ->
     nth_error (density G') k = nth_error (density G) k).

(** Sum of a list of numbers, and what the script adds to
    [total_compression] for a layer. *)
Definition Qsum (l : list Q) : Q := fold_right Qplus 0 l.

Definition layer_compression (l : CompressedLayer) : Q := 1.0 - layer_thickness l.

(** ** Rendering (lines 12-29 and 202-336)

    The script draws into a numpy array with skimage and writes text
    with matplotlib.  What is modelled is what the script computes: the
    calls it makes, in order, with their arguments.  The libraries
    themselves (how a rectangle is clipped to the image, how a number
    is formatted in a label) are outside the model; a label is kept as
    the text pattern and the values that enter it. *)

Definition Color : Type := (Q * Q * Q)%type.

Definition white       : Color := (1.0, 1.0, 1.0).
Definition black       : Color := (0.0, 0.0, 0.0).
Definition wheel_color : Color := (0.0, 0.1, 0.5).

(** Lines 23-29. *)
Definition gray_value_for_depth (depth : nat) : Q :=
  if (depth <=? 6)%nat then 0.9 - 0.1 * of_depth depth
  else if (depth <=? 11)%nat then 0.25 - 0.05 * (of_depth depth - 7)
  else 0.0.

Definition image_height  : Q := 1000.
Definition image_width   : Q := 2000.
Definition pixels_per_cm : Q := 50.
Definition ground_level  : Q := 200.

Inductive Label : Type :=
| DepthLabel (number : nat) (layer_density : Q)
    (* f"depth {i+1}: {layer_density:.2f} g/cm3" *)
| BearingCapLabel (layer_bc : Q)
    (* f"bearing cap: {layer_bc:.2f} N/cm2" *)
| PressureLabel (pressure_here : Q)
    (* f"{pressure_here:.2f} N/cm2" *)
| WheelOfLabel (name : string)
    (* f"wheel of: {vehicle_name}" *)
| Blank
    (* "   " *)
| MassLabel (mass : Q)
    (* f"vehicle mass: {mass_of_vehicle} kg" *)
| ForceLabel (force : Q)
    (* f"force on wheel: {force_per_wheel} N" *)
| SinksLabel (compression : Q).
    (* f"sinks to {total_compression:.2f} cm" *)

Inductive Drawing : Type :=
| Rectangle (start extent : Q * Q) (color : Color)
    (* rr, cc = rectangle(start, extent=extent, shape=img.shape)
       img[rr, cc] = color *)
| LineSegment (r0 c0 r1 c1 : Q) (color : Color)
    (* rr, cc = line ( r0, c0, r1, c1 ) ; img[rr, cc] = color *)
| TextAt (x y : Q) (label : Label) (color : Color).
    (* mpl.text ( x, y, label, color=color ) *)

(** The module-level variables that the rendering part assigns, and
    the calls made so far.  [g] is not bound until the first loop has
    assigned it. *)
Record RenderState : Type := {
  y                          : Q;
  first_uncompressed_layer_y : Q;
  g                          : option Color;
  first_layer_width          : Q;
  first_layer_left_edge      : Q;
  drawings                   : list Drawing
}.

(** [for i in indices : body], for a body that may raise. *)
Fixpoint for_each {S : Type} (body : nat -> S -> Outcome S)
    (indices : list nat) (s : S) : Outcome S :=
  match indices with
  | [] => Ok s
  | i :: rest =>
      match body i s with
      | Ok s' => for_each body rest s'
      | Raised e => Raised e
      end
  end.

(** Lines 224-252: the band of the original layer [i].  The value
    [percent_density] of lines 226-227 is only printed. *)
Definition draw_band (G : Globals) (st : LoopState) (i : nat) (rs : RenderState)
  : Outcome RenderState :=
  layer_density <- py_index (density G) i ;;
  layer_bc <- py_index (bearing_cap G) i ;;
  let gray := gray_value_for_depth i in
  let rect_start := (y rs, 0) in
  let rect_height := pixels_per_cm in
  let rect_width := image_width in
  let rect_extent := (rect_height, rect_width) in
  let first_uncompressed_layer_y' :=
    if (i =? first_uncompressed_layer st)%nat
    then y rs else first_uncompressed_layer_y rs in
  let left_label := DepthLabel (i + 1) layer_density in
  let right_label := BearingCapLabel layer_bc in
  let g' := if (i <? 4)%nat then black else white in
  Ok {| y                          := y rs + pixels_per_cm;
        first_uncompressed_layer_y := first_uncompressed_layer_y';
        g                          := Some g';
        first_layer_width          := first_layer_width rs;
        first_layer_left_edge      := first_layer_left_edge rs;
        drawings                   :=
          drawings rs
            ++ [Rectangle rect_start rect_extent (gray, gray, gray);
                TextAt 300 (y rs + 30) left_label g';
                TextAt 1400 (y rs + 30) right_label g';
                LineSegment (y rs) 0 (y rs) (image_width - 1) black] |}.

(** Lines 206-252.  [first_layer_width] and [first_layer_left_edge]
    are assigned 0 on lines 265-266, before anything reads them. *)
Definition draw_profile (G : Globals) (st : LoopState) : Outcome RenderState :=
  for_each (draw_band G st) (range 12)
    {| y                          := ground_level;
       first_uncompressed_layer_y := 0;
       g                          := None;
       first_layer_width          := 0;
       first_layer_left_edge      := 0;
       drawings                   := [] |}.

(** Lines 270-291: the rectangle of the compressed layer [i]. *)
Definition draw_compressed_layer (st : LoopState)
    (pressure_range image_x_center : Q) (i : nat) (rs : RenderState)
  : Outcome RenderState :=
  layer <- py_index (compressed_layers st) i ;;
  let layer_width := layer_edge layer * pixels_per_cm in
  let layer_height := layer_thickness layer * pixels_per_cm in
  let layer_left_edge := image_x_center - layer_width / 2 in
  let first_layer_left_edge' :=
    if (i =? 0)%nat then layer_left_edge else first_layer_left_edge rs in
  let first_layer_width' :=
    if (i =? 0)%nat then layer_width else first_layer_width rs in
  let rect_start := (y rs, layer_left_edge) in
  let rect_extent := (layer_height, layer_width) in
  let pressure_here := layer_pressure layer in
  let label := PressureLabel pressure_here in
  color <- match g rs with
           | Some c => Ok c
           | None => Raised (NameError "g")
           end ;;
  pressure_percent <- py_div (pressure_here - min_pressure st) pressure_range ;;
  Ok {| y                          := y rs + layer_height;
        first_uncompressed_layer_y := first_uncompressed_layer_y rs;
        g                          := g rs;
        first_layer_width          := first_layer_width';
        first_layer_left_edge      := first_layer_left_edge';
        drawings                   :=
          drawings rs
            ++ [TextAt (image_x_center - 100) (y rs + 30) label color;
                Rectangle rect_start rect_extent (pressure_percent, 0.0, 0.0)] |}.

(** Lines 261-291.  The assignment to [y] of line 262 is overwritten
    on line 267 before [y] is read. *)
Definition draw_compressed (st : LoopState) (rs : RenderState) : Outcome RenderState :=
  let pressure_range := max_pressure st - min_pressure st in
  let n_compressed_layers := length (compressed_layers st) in
  let image_x_center := image_width / 2 in
  for_each (draw_compressed_layer st pressure_range image_x_center)
    (range n_compressed_layers)
    {| y                          := ground_level + total_compression st * pixels_per_cm;
       first_uncompressed_layer_y := first_uncompressed_layer_y rs;
       g                          := g rs;
       first_layer_width          := 0;
       first_layer_left_edge      := 0;
       drawings                   := drawings rs |}.

(** Lines 311-318. *)
Definition wheel_labels (G : Globals) (st : LoopState) : list Label :=
  [WheelOfLabel (vehicle_name (vehicle G)); Blank;
   MassLabel (mass_of_vehicle (vehicle G)); Blank;
   ForceLabel (force_per_wheel G); Blank;
   SinksLabel (total_compression st)].

(** Lines 323-325: [mpl.text ( x, y, labels [ i ], color=white )] and
    [y += spacing], label after label. *)
Fixpoint write_labels (x spacing : Q) (labels : list Label) (rs : RenderState)
  : RenderState :=
  match labels with
  | [] => rs
  | label :: rest =>
      write_labels x spacing rest
        {| y                          := y rs + spacing;
           first_uncompressed_layer_y := first_uncompressed_layer_y rs;
           g                          := g rs;
           first_layer_width          := first_layer_width rs;
           first_layer_left_edge      := first_layer_left_edge rs;
           drawings                   := drawings rs ++ [TextAt x (y rs) label white] |}
  end.

(** Lines 293-325: the marker line, the wheel and its labels. *)
Definition draw_wheel (G : Globals) (st : LoopState) (rs : RenderState) : RenderState :=
  let line_y := first_uncompressed_layer_y rs in
  let wheel_bottom := ground_level + total_compression st * pixels_per_cm in
  let rect_start := (0, first_layer_left_edge rs) in
  let rect_extent := (wheel_bottom, first_layer_width rs) in
  let x := first_layer_left_edge rs + 20 in
  let spacing := 30 in
  write_labels x spacing (wheel_labels G st)
    {| y                          := 30;
       first_uncompressed_layer_y := first_uncompressed_layer_y rs;
       g                          := g rs;
       first_layer_width          := first_layer_width rs;
       first_layer_left_edge      := first_layer_left_edge rs;
       drawings                   :=
         drawings rs
           ++ [LineSegment line_y 0 line_y (image_width - 1) white;
               Rectangle rect_start rect_extent wheel_color] |}.

(** Lines 202-334.  The image is saved by the last statements, after
    all the drawing has been done without an exception. *)
Definition render (G : Globals) (st : LoopState) : Outcome RenderState :=
  rs1 <- draw_profile G st ;;
  rs2 <- draw_compressed st rs1 ;;
  Ok (draw_wheel G st rs2).

(** The whole script for a vehicle, a spread factor and a profile
    depth: lines 77-334. *)
Definition simulate_and_render (cfg : VehicleConfig) (force_spread : Q) (max_depth : nat)
  : Outcome RenderState :=
  sim <- simulate cfg force_spread max_depth ;;
  render (fst sim) (snd sim).

(** What the second loop of the rendering draws for a compressed layer:
    the label of its pressure, and a rectangle as wide and as high as
    the layer, centred in the image, in a red proportional to the
    pressure between [min_pressure] and [max_pressure]. *)
Definition drawn_for_layer (st : LoopState) (d : Drawing) : Prop :=
  match d with
  | Rectangle (_, left_edge) (height, width) (red, green, blue) =>
      exists layer,
        In layer (compressed_layers st) /\
        width = layer_edge layer * pixels_per_cm /\
        height = layer_thickness layer * pixels_per_cm /\
        left_edge = image_width / 2 - width / 2 /\
        red = (layer_pressure layer - min_pressure st)
              / (max_pressure st - min_pressure st) /\
        green = 0.0 /\ blue = 0.0
  | TextAt _ _ (PressureLabel p) _ =>
      exists layer, In layer (compressed_layers st) /\ p = layer_pressure layer
  | _ => False
  end.

(** The red components of the rectangles among some drawings, in
    order. *)
Definition rectangle_reds (ds : list Drawing) : list Q :=
  flat_map
    (fun d => match d with
              | Rectangle _ _ (red, _, _) => [red]
              | _ => []
              end)
    ds.

(** ** Example runs *)

(** Three depths under a wheel 10 cm wide that carries 2400 N, with no
    spread.  Depth 0 collapses; at depth 1 the bearing capacity is the
    downward force exactly, 24 N/cm2. *)
Definition tie_globals : Globals :=
  {| vehicle         := ppl;
     force_per_wheel := 2400;
     force_spread    := 0;
     max_depth       := 3;
     density         := [1.1; 1.3; 1.4];
     bearing_cap     := [0.03; 24; 50] |}.


(** The same wheel with a spread of 1 cm per cm of depth: depths 0 and
    1 collapse and depth 2 supports the load. *)
Definition spread_globals : Globals :=
  {| vehicle         := ppl;
     force_per_wheel := 2400;
     force_spread    := 1;
     max_depth       := 3;
     density         := [1.1; 1.3; 1.4];
     bearing_cap     := [0.03; 1; 50] |}.

Definition spread_state : LoopState :=
  {| total_compression        := 32000000 # 40000000;
     first_uncompressed_layer := 2;
     max_pressure             := 2400 # 100;
     min_pressure             := 2400 # 196;
     support_footprint_edge   := 14;
     compressed_layers        :=
       [(10, 110 # 200, 2400 # 100); (12, 130 # 200, 2400 # 144)] |}.

(** The PP&L vehicle over a profile of a single depth. *)
Definition one_depth_globals : Globals :=
  {| vehicle         := ppl;
     force_per_wheel := 6000 * lunar_gravity / 4;
     force_spread    := 0.0875;
     max_depth       := 1;
     density         := fst (profile 1);
     bearing_cap     := snd (profile 1) |}.

Definition one_depth_state : LoopState :=
  {| total_compression        := 260590000 # 580000000;
     first_uncompressed_layer := 0;
     max_pressure             := 96000 # 4000;
     min_pressure             := 96000 # 4000;
     support_footprint_edge   := 10.1750;
     compressed_layers        := [(10, 3194100 # 5800000, 96000 # 4000)] |}.

(** * Properties *)

(** ** Tests and comparisons *)

Lemma Qlt_bool_iff (x y : Q) : Qlt_bool x y = true <-> x < y.
Proof.
  unfold Qlt_bool. rewrite negb_true_iff. split.
  - intros H. apply Qnot_le_lt. intros Hle.
    apply Qle_bool_iff in Hle. congruence.
  - intros H. destruct (Qle_bool y x) eqn:E; [|reflexivity].
    apply Qle_bool_iff in E. exfalso. exact (Qlt_not_le _ _ H E).
Qed.

Lemma Qle_bool_false_iff (x y : Q) : Qle_bool x y = false <-> y < x.
Proof.
  rewrite <- Qlt_bool_iff. unfold Qlt_bool. now rewrite negb_true_iff.
Qed.

Lemma py_div_Ok (x y : Q) : ~ y == 0 -> py_div x y = Ok (x / y).
Proof.
  intros H. unfold py_div. destruct (Qeq_bool y 0) eqn:E; [|reflexivity].
  apply Qeq_bool_iff in E. contradiction.
Qed.

Lemma py_div_inv (x y q : Q) : py_div x y = Ok q -> ~ y == 0 /\ q = x / y.
Proof.
  unfold py_div. destruct (Qeq_bool y 0) eqn:E; [discriminate|].
  intros [= <-]. split; [|reflexivity].
  intros H. apply Qeq_bool_iff in H. congruence.
Qed.

Lemma py_index_inv {A : Type} (l : list A) (i : nat) (a : A) :
  py_index l i = Ok a -> nth_error l i = Some a.
Proof.
  unfold py_index. destruct (nth_error l i); [intros [= <-]; reflexivity | discriminate].
Qed.

Lemma fold_left_Qplus (f : CompressedLayer -> Q) (l : list CompressedLayer) (a : Q) :
  fold_left (fun acc x => acc + f x) l a == a + Qsum (map f l).
Proof.
  revert a. induction l as [|x l IH]; intros a; cbn [fold_left map].
  - unfold Qsum. cbn [fold_right]. ring.
  - rewrite IH. unfold Qsum. cbn [fold_right]. ring.
Qed.

Lemma fold_left_Qsum (l : list CompressedLayer) :
  fold_left (fun acc x => acc + layer_compression x) l 0.0
  == Qsum (map (fun x => 1.0 - layer_thickness x) l).
Proof.
  rewrite fold_left_Qplus. unfold layer_compression.
  setoid_replace 0.0 with 0 by reflexivity. ring.
Qed.

Lemma of_depth_nonneg (depth : nat) : 0 <= of_depth depth.
Proof.
  unfold of_depth. change 0 with (inject_Z 0). rewrite <- Zle_Qle. lia.
Qed.

Lemma of_depth_le (a b : nat) : (a <= b)%nat -> of_depth a <= of_depth b.
Proof.
  intros H. unfold of_depth. rewrite <- Zle_Qle. lia.
Qed.

Lemma nth_error_map_seq {A : Type} (f : nat -> A) (n k : nat) :
  (k < n)%nat -> nth_error (map f (seq 0 n)) k = Some (f k).
Proof.
  intros H. rewrite nth_error_map, nth_error_seq.
  destruct (Nat.ltb_spec k n); [reflexivity | lia].
Qed.


Lemma Qsquare (x : Q) : x ^ 2 = x * x.
Proof. reflexivity. Qed.

Lemma Qsquare_le (e E : Q) : 0 < e -> e <= E -> e * e <= E * E.
Proof. intros He HE. nra. Qed.

Lemma Qmult_le_nonneg_l (c x y : Q) : 0 <= c -> x <= y -> c * x <= c * y.
Proof. intros Hc Hxy. nra. Qed.

(** A bearing capacity [c] is below the pressure [f / e ** 2] as soon as
    it is below the pressure over a larger edge [E]; it is at least
    that pressure as soon as it is at least the pressure over a smaller
    edge. *)
Lemma below_pressure (c f e E : Q) :
  0 < e -> e <= E -> 0 <= c -> c * (E * E) < f -> c < f / (e * e).
Proof.
  intros He HE Hc Hlt.
  pose proof (Qsquare_le e E He HE) as Hsq.
  pose proof (Qmult_le_nonneg_l c _ _ Hc Hsq) as Hle.
  assert (Hee : 0 < e * e) by nra.
  apply Qlt_shift_div_l; [exact Hee | lra].
Qed.

Lemma at_least_pressure (c f e E : Q) :
  0 < E -> E <= e -> 0 <= c -> f <= c * (E * E) -> f / (e * e) <= c.
Proof.
  intros HE He Hc Hle.
  pose proof (Qsquare_le E e HE He) as Hsq.
  pose proof (Qmult_le_nonneg_l c _ _ Hc Hsq) as Hle'.
  assert (Hee : 0 < e * e) by nra.
  apply Qle_shift_div_r; [exact Hee | lra].
Qed.

(** ** The profile generator *)

Lemma fill_profile_spec (depths : list nat) (density bearing_cap : list Q) :
  fill_profile depths (density, bearing_cap)
  = (density ++ map (fun depth => fst (density_and_bearing_cap_at_depth depth)) depths,
     bearing_cap ++ map (fun depth => snd (density_and_bearing_cap_at_depth depth)) depths).
Proof.
  revert density bearing_cap.
  induction depths as [|depth rest IH]; intros density bearing_cap.
  - cbn. now rewrite !app_nil_r.
  - change (fill_profile (depth :: rest) (density, bearing_cap))
      with (fill_profile rest
              (density ++ [fst (density_and_bearing_cap_at_depth depth)],
               bearing_cap ++ [snd (density_and_bearing_cap_at_depth depth)])).
    rewrite IH. cbn [map]. now rewrite <- !app_assoc.
Qed.

Lemma profile_spec (max_depth : nat) :
  profile max_depth
  = (map (fun depth => fst (density_and_bearing_cap_at_depth depth)) (range max_depth),
     map (fun depth => snd (density_and_bearing_cap_at_depth depth)) (range max_depth)).
Proof. unfold profile. now rewrite fill_profile_spec. Qed.

Lemma density_below_grain_density (depth : nat) :
  0 <= fst (density_and_bearing_cap_at_depth depth) /\
  fst (density_and_bearing_cap_at_depth depth) < grain_density.
Proof.
  pose proof (of_depth_nonneg depth) as H. cbn [fst density_and_bearing_cap_at_depth].
  unfold grain_density. split.
  - apply Qle_shift_div_l; lra.
  - apply Qlt_shift_div_r; lra.
Qed.

Lemma density_monotone (shallow deep : nat) :
  (shallow <= deep)%nat ->
  fst (density_and_bearing_cap_at_depth shallow)
  <= fst (density_and_bearing_cap_at_depth deep).
Proof.
  intros Hle. pose proof (of_depth_nonneg shallow) as Hx.
  pose proof (of_depth_le _ _ Hle) as Hxy.
  cbn [fst density_and_bearing_cap_at_depth].
  set (x := of_depth shallow) in *. set (y := of_depth deep) in *.
  apply Qle_shift_div_l; [lra|].
  assert (E : 1.89 * (x + 1.69) / (x + 2.9) * (y + 2.9)
              == (1.89 * (x + 1.69) * (y + 2.9)) / (x + 2.9)) by (field; lra).
  rewrite E. apply Qle_shift_div_r; [lra | nra].
Qed.

Lemma bearing_cap_positive (depth : nat) :
  0 < snd (density_and_bearing_cap_at_depth depth).
Proof.
  pose proof (of_depth_nonneg depth) as H. cbn [snd density_and_bearing_cap_at_depth].
  unfold min_bearing_cap, bearing_per_cm.
  assert (E : 65.0 / 30 == 13 # 6) by reflexivity. rewrite E. lra.
Qed.

(** ** The compression loop, one iteration *)

Section CompressionFacts.

Variable G : Globals.

(** What one iteration does, read back from its result. *)
Lemma loop_body_inv (depth : nat) (st st' : LoopState) (flow : Flow) :
  loop_body G depth st = Ok (flow, st') ->
  let downward_force := force_per_wheel G / (support_footprint_edge st ^ 2) in
  ~ support_footprint_edge st ^ 2 == 0 /\
  exists support,
    nth_error (bearing_cap G) depth = Some support /\
    match flow with
    | Break =>
        downward_force <= support /\
        first_uncompressed_layer st' = depth /\
        total_compression st' = total_compression st /\
        support_footprint_edge st' = support_footprint_edge st /\
        compressed_layers st' = compressed_layers st
    | Continue =>
        support < downward_force /\
        first_uncompressed_layer st' = first_uncompressed_layer st /\
        exists pre_collapse_density,
          nth_error (density G) depth = Some pre_collapse_density /\
          total_compression st' =
            total_compression st + (1.0 - pre_collapse_density / grain_density) /\
          support_footprint_edge st' = support_footprint_edge st + 2 * force_spread G /\
          compressed_layers st' =
            compressed_layers st
              ++ [(support_footprint_edge st,
                   pre_collapse_density / grain_density,
                   downward_force)]
    end.
Proof.
  unfold loop_body, bind. intros H.
  destruct (py_div _ _) as [df|] eqn:Ediv; [|discriminate].
  apply py_div_inv in Ediv as [Hnz ->].
  destruct (py_index (bearing_cap G) depth) as [support|] eqn:Ecap; [|discriminate].
  apply py_index_inv in Ecap.
  cbv zeta. split; [exact Hnz|]. exists support. split; [exact Ecap|].
  destruct (Qle_bool _ support) eqn:Ele.
  - injection H as <- <-. cbn. apply Qle_bool_iff in Ele. tauto.
  - destruct (py_index (density G) depth) as [pre|] eqn:Eden; [|discriminate].
    apply py_index_inv in Eden.
    injection H as <- <-. cbn. apply Qle_bool_false_iff in Ele.
    split; [exact Ele|]. split; [reflexivity|].
    exists pre. tauto.
Qed.

(** The two ways through the body, from the tests it makes. *)
Lemma loop_body_break (depth : nat) (st : LoopState) (support : Q) :
  ~ support_footprint_edge st ^ 2 == 0 ->
  nth_error (bearing_cap G) depth = Some support ->
  force_per_wheel G / (support_footprint_edge st ^ 2) <= support ->
  exists st',
    loop_body G depth st = Ok (Break, st') /\
    first_uncompressed_layer st' = depth /\
    total_compression st' = total_compression st /\
    support_footprint_edge st' = support_footprint_edge st /\
    compressed_layers st' = compressed_layers st.
Proof.
  intros Hnz Hcap Hle. unfold loop_body, bind.
  rewrite (py_div_Ok _ _ Hnz). unfold py_index. rewrite Hcap.
  apply Qle_bool_iff in Hle. rewrite Hle.
  eexists. split; [reflexivity|]. cbn. tauto.
Qed.

Lemma loop_body_continue (depth : nat) (st : LoopState) (support pre : Q) :
  ~ support_footprint_edge st ^ 2 == 0 ->
  nth_error (bearing_cap G) depth = Some support ->
  support < force_per_wheel G / (support_footprint_edge st ^ 2) ->
  nth_error (density G) depth = Some pre ->
  exists st',
    loop_body G depth st = Ok (Continue, st') /\
    first_uncompressed_layer st' = first_uncompressed_layer st /\
    total_compression st' = total_compression st + (1.0 - pre / grain_density) /\
    support_footprint_edge st' = support_footprint_edge st + 2 * force_spread G /\
    compressed_layers st' =
      compressed_layers st
        ++ [(support_footprint_edge st, pre / grain_density,
             force_per_wheel G / (support_footprint_edge st ^ 2))].
Proof.
  intros Hnz Hcap Hlt Hden. unfold loop_body, bind.
  rewrite (py_div_Ok _ _ Hnz). unfold py_index. rewrite Hcap, Hden.
  apply Qle_bool_false_iff in Hlt. rewrite Hlt.
  eexists. split; [reflexivity|]. cbn. tauto.
Qed.

(** ** The compression loop, from depth [k] on *)

Lemma edge_at_S (k : nat) : edge_at G (S k) = edge_at G k + 2 * force_spread G.
Proof. reflexivity. Qed.

Lemma layers_snoc (k : nat) :
  map (layer_at G) (seq 0 k) ++ [layer_at G k] = map (layer_at G) (seq 0 (S k)).
Proof. now rewrite seq_S, map_app. Qed.

Lemma entry_state_initial : entry_state G 0 (initial_state G).
Proof. split; reflexivity. Qed.

(** A finished loop, read back: the layers are those of the depths
    [0 .. m-1], all of which collapsed, and either depth [m] supported
    the load or the range was exhausted. *)
Lemma for_depths_inv (n : nat) :
  forall (k : nat) (st st' : LoopState),
    entry_state G k st ->
    for_depths G (seq k n) st = Ok st' ->
    exists m : nat,
      (k <= m <= k + n)%nat /\
      entry_state G m st' /\
      (forall j, (k <= j < m)%nat -> collapses_at G j) /\
      ((m < k + n)%nat /\ supported_at G m /\ first_uncompressed_layer st' = m
       \/ m = (k + n)%nat /\
          first_uncompressed_layer st' = first_uncompressed_layer st).
Proof.
  induction n as [|n IH]; intros k st st' [Hedge Hlayers] Hrun.
  - injection Hrun as <-. exists k. split; [lia|].
    split; [split; assumption|]. split; [intros j Hj; lia|].
    right. split; [lia | reflexivity].
  - cbn [seq for_depths] in Hrun.
    destruct (loop_body G k st) as [[[|] st1]|] eqn:Ebody; [| |discriminate].
    + (* the layer at depth k collapses *)
      apply loop_body_inv in Ebody.
      destruct Ebody as (Hnz & support & Hcap & Hlt & Hfirst & pre & Hden & _ & Hedge1 & Hlayers1).
      assert (Hentry1 : entry_state G (S k) st1).
      { split.
        - rewrite Hedge1, Hedge. reflexivity.
        - rewrite Hlayers1, Hlayers, Hedge, <- layers_snoc.
          unfold layer_at, pressure_at.
          now rewrite (nth_error_nth _ _ _ Hden). }
      destruct (IH (S k) st1 st' Hentry1 Hrun) as (m & Hm & Hentry & Hcoll & Hend).
      exists m. split; [lia|]. split; [exact Hentry|]. split.
      * intros j Hj. destruct (Nat.eq_dec j k) as [->|Hne].
        -- unfold collapses_at, pressure_at. rewrite <- Hedge.
           split; [exact Hnz|]. split.
           ++ apply nth_error_Some. congruence.
           ++ exists support. split; assumption.
        -- apply Hcoll. lia.
      * destruct Hend as [(Hlt' & Hsup & Hf)|(-> & Hf)].
        -- left. split; [lia|]. split; assumption.
        -- right. split; [lia|]. congruence.
    + (* the load is supported at depth k *)
      injection Hrun as <-.
      apply loop_body_inv in Ebody.
      destruct Ebody as (Hnz & support & Hcap & Hle & Hfirst & _ & Hedge1 & Hlayers1).
      exists k. split; [lia|]. split.
      * split; congruence.
      * split; [intros j Hj; lia|].
        left. split; [lia|]. split; [|exact Hfirst].
        unfold supported_at, pressure_at. rewrite <- Hedge.
        split; [exact Hnz|]. exists support. split; assumption.
Qed.

(** The loop run forward: when the depths [k .. d-1] collapse and depth
    [d] supports the load, the loop leaves at [d], whatever the range
    holds beyond [d]. *)
Lemma for_depths_stops (d : nat) :
  forall (k : nat) (st : LoopState),
    entry_state G k st ->
    (k <= d)%nat ->
    (forall j, (k <= j < d)%nat -> collapses_at G j) ->
    supported_at G d ->
    exists st' : LoopState,
      (forall n, (d < k + n)%nat -> for_depths G (seq k n) st = Ok st') /\
      entry_state G d st' /\
      first_uncompressed_layer st' = d.
Proof.
  intros k st Hentry Hkd. remember (d - k)%nat as gap eqn:Hgap.
  revert k st Hentry Hkd Hgap.
  induction gap as [|gap IH]; intros k st [Hedge Hlayers] Hkd Hgap Hcoll Hsup.
  - assert (k = d) as -> by lia.
    destruct Hsup as (Hnz & support & Hcap & Hle).
    unfold pressure_at in Hle. rewrite <- Hedge in Hnz, Hle.
    destruct (loop_body_break d st support Hnz Hcap Hle)
      as (st' & Hbody & Hfirst & _ & Hedge' & Hlayers').
    exists st'. split; [|split; [split; congruence | exact Hfirst]].
    intros [|n] Hn; [lia|]. cbn [seq for_depths]. now rewrite Hbody.
  - destruct (Hcoll k ltac:(lia)) as (Hnz & Hlen & support & Hcap & Hlt).
    unfold pressure_at in Hlt. rewrite <- Hedge in Hnz, Hlt.
    destruct (nth_error (density G) k) as [pre|] eqn:Hden;
      [|apply nth_error_None in Hden; lia].
    destruct (loop_body_continue k st support pre Hnz Hcap Hlt Hden)
      as (st1 & Hbody & _ & _ & Hedge1 & Hlayers1).
    assert (Hentry1 : entry_state G (S k) st1).
    { split.
      - rewrite Hedge1, Hedge. reflexivity.
      - rewrite Hlayers1, Hlayers, Hedge, <- layers_snoc.
        unfold layer_at, pressure_at.
        now rewrite (nth_error_nth _ _ _ Hden). }
    destruct (IH (S k) st1 Hentry1 ltac:(lia) ltac:(lia)) as (st' & Hrun & Hres).
    { intros j Hj. apply Hcoll. lia. }
    { exact Hsup. }
    exists st'. split; [|exact Hres].
    intros [|n] Hn; [lia|]. cbn [seq for_depths]. rewrite Hbody.
    apply Hrun. lia.
Qed.

(** The loop run forward when no depth of the range supports the load:
    it runs off the end of the range and [first_uncompressed_layer] is
    left as it was. *)
Lemma for_depths_exhausts (n : nat) :
  forall (k : nat) (st : LoopState),
    entry_state G k st ->
    (forall j, (k <= j < k + n)%nat -> collapses_at G j) ->
    exists st' : LoopState,
      for_depths G (seq k n) st = Ok st' /\
      entry_state G (k + n) st' /\
      first_uncompressed_layer st' = first_uncompressed_layer st.
Proof.
  induction n as [|n IH]; intros k st [Hedge Hlayers] Hcoll.
  - exists st. rewrite Nat.add_0_r. repeat split; assumption.
  - destruct (Hcoll k ltac:(lia)) as (Hnz & Hlen & support & Hcap & Hlt).
    unfold pressure_at in Hlt. rewrite <- Hedge in Hnz, Hlt.
    destruct (nth_error (density G) k) as [pre|] eqn:Hden;
      [|apply nth_error_None in Hden; lia].
    destruct (loop_body_continue k st support pre Hnz Hcap Hlt Hden)
      as (st1 & Hbody & Hfirst1 & _ & Hedge1 & Hlayers1).
    assert (Hentry1 : entry_state G (S k) st1).
    { split.
      - rewrite Hedge1, Hedge. reflexivity.
      - rewrite Hlayers1, Hlayers, Hedge, <- layers_snoc.
        unfold layer_at, pressure_at.
        now rewrite (nth_error_nth _ _ _ Hden). }
    destruct (IH (S k) st1 Hentry1) as (st' & Hrun & Hentry' & Hfirst').
    { intros j Hj. apply Hcoll. lia. }
    exists st'. cbn [seq for_depths]. rewrite Hbody.
    replace (k + S n)%nat with (S k + n)%nat by lia.
    split; [exact Hrun|]. split; [exact Hentry'|]. congruence.
Qed.

(** The running total, whatever the depths visited. *)
Lemma for_depths_total (depths : list nat) :
  forall st st' : LoopState,
    for_depths G depths st = Ok st' ->
    total_compression st
      = fold_left (fun acc l => acc + layer_compression l) (compressed_layers st) 0.0 ->
    total_compression st'
      = fold_left (fun acc l => acc + layer_compression l) (compressed_layers st') 0.0.
Proof.
  induction depths as [|depth rest IH]; intros st st' Hrun Hinv.
  - injection Hrun as <-. exact Hinv.
  - cbn [for_depths] in Hrun.
    destruct (loop_body G depth st) as [[[|] st1]|] eqn:Ebody; [| |discriminate].
    + apply loop_body_inv in Ebody.
      destruct Ebody as (_ & support & _ & _ & _ & pre & _ & Htotal & _ & Hlayers).
      apply (IH st1 st' Hrun).
      rewrite Htotal, Hlayers, fold_left_app, <- Hinv. reflexivity.
    + injection Hrun as <-. apply loop_body_inv in Ebody.
      destruct Ebody as (_ & support & _ & _ & _ & Htotal & _ & Hlayers).
      now rewrite Htotal, Hlayers.
Qed.

(** An iteration reads nothing but the scalars, the bearing capacity of
    its depth and, when the layer collapses, the density of its depth. *)
Lemma loop_body_ext (G' : Globals) (depth : nat) (st : LoopState) :
  force_per_wheel G' = force_per_wheel G ->
  force_spread G' = force_spread G ->
  nth_error (bearing_cap G') depth = nth_error (bearing_cap G) depth ->
  (nth_error (density G') depth = nth_error (density G) depth
   \/ exists st', loop_body G depth st = Ok (Break, st')) ->
  loop_body G' depth st = loop_body G depth st.
Proof.
  intros Hf Hs Hcap Hden. unfold loop_body, bind, py_index in *.
  rewrite Hf, Hs, Hcap.
  destruct (py_div _ _) as [df|]; [|reflexivity].
  destruct (nth_error (bearing_cap G) depth) as [support|]; [|reflexivity].
  destruct (Qle_bool df support); [reflexivity|].
  destruct Hden as [->|[st' Hbreak]]; [reflexivity|].
  destruct (nth_error (density G) depth); discriminate.
Qed.

(** The run that leaves at depth [d] is the run of any [G'] that is
    the same down to [d]. *)
Lemma for_depths_stops_ext (G' : Globals) (d : nat) :
  same_down_to d G G' ->
  forall (gap k : nat) (st : LoopState),
    gap = (d - k)%nat ->
    entry_state G k st ->
    (k <= d)%nat ->
    (forall j, (k <= j < d)%nat -> collapses_at G j) ->
    supported_at G d ->
    forall n n', (d < k + n)%nat -> (d < k + n')%nat ->
      for_depths G' (seq k n') st = for_depths G (seq k n) st.
Proof.
  intros (Hw & Hf & Hs & Hcaps & Hdens).
  induction gap as [|gap IH]; intros k st Hgap [Hedge Hlayers] Hkd Hcoll Hsup n n' Hn Hn'.
  - assert (k = d) as -> by lia.
    destruct Hsup as (Hnz & support & Hcap & Hle).
    unfold pressure_at in Hle. rewrite <- Hedge in Hnz, Hle.
    destruct (loop_body_break d st support Hnz Hcap Hle) as (st' & Hbody & _).
    destruct n as [|n]; [lia|]. destruct n' as [|n']; [lia|].
    cbn [seq for_depths].
    rewrite (loop_body_ext G' d st Hf Hs (Hcaps d (Nat.le_refl d))
               (or_intror (ex_intro _ st' Hbody))).
    now rewrite Hbody.
  - destruct (Hcoll k ltac:(lia)) as (Hnz & Hlen & support & Hcap & Hlt).
    unfold pressure_at in Hlt. rewrite <- Hedge in Hnz, Hlt.
    destruct (nth_error (density G) k) as [pre|] eqn:Hden;
      [|apply nth_error_None in Hden; lia].
    destruct (loop_body_continue k st support pre Hnz Hcap Hlt Hden)
      as (st1 & Hbody & _ & _ & Hedge1 & Hlayers1).
    assert (Hentry1 : entry_state G (S k) st1).
    { split.
      - rewrite Hedge1, Hedge. reflexivity.
      - rewrite Hlayers1, Hlayers, Hedge, <- layers_snoc.
        unfold layer_at, pressure_at.
        now rewrite (nth_error_nth _ _ _ Hden). }
    destruct n as [|n]; [lia|]. destruct n' as [|n']; [lia|].
    cbn [seq for_depths].
    rewrite (loop_body_ext G' k st Hf Hs (Hcaps k ltac:(lia))
               (or_introl (Hdens k ltac:(lia)))).
    rewrite Hbody.
    apply (IH (S k) st1); try lia; try assumption.
    intros j Hj. apply Hcoll. lia.
Qed.

(** C1.  The loop scans the depths from 0 upward.  Let [d] be the first
    depth of the range whose bearing capacity is greater than or equal to
    the downward force computed there (equality included), every
    shallower depth having collapsed.  Then the loop finishes with
    [first_uncompressed_layer = d]; the layers it has appended are those
    of the depths [0 .. d-1], so none for [d]; and nothing deeper than
    [d] is processed: the run is the same for every [G'] that differs
    from [G] only in a longer or shorter range beyond [d] and in the
    profile entries below [d]. *)
Theorem first_supported_depth_ends_loop (d : nat) :
  (d < max_depth G)%nat ->
  (forall k, (k < d)%nat -> collapses_at G k) ->
  supported_at G d ->
  exists st : LoopState,
    compress G = Ok st /\
    first_uncompressed_layer st = d /\
    compressed_layers st = map (layer_at G) (seq 0 d) /\
    length (compressed_layers st) = d /\
    forall G' : Globals,
      same_down_to d G G' -> (d < max_depth G')%nat -> compress G' = Ok st.
Proof.
  intros Hd Hcoll Hsup.
  assert (Hcoll' : forall j, (0 <= j < d)%nat -> collapses_at G j)
    by (intros j Hj; apply Hcoll; lia).
  destruct (for_depths_stops d 0 (initial_state G) entry_state_initial
              (Nat.le_0_l d) Hcoll' Hsup) as (st & Hrun & [Hedge Hlayers] & Hfirst).
  exists st. split; [apply Hrun; lia|]. split; [exact Hfirst|].
  split; [exact Hlayers|]. split.
  - rewrite Hlayers, length_map, length_seq. reflexivity.
  - intros G' Hsame Hd'. unfold compress, range.
    assert (Hinit : initial_state G' = initial_state G).
    { unfold initial_state. destruct Hsame as (-> & _). reflexivity. }
    rewrite Hinit.
    rewrite (for_depths_stops_ext G' d Hsame d 0 (initial_state G)
               (eq_sym (Nat.sub_0_r d)) entry_state_initial (Nat.le_0_l d) Hcoll' Hsup
               (max_depth G) (max_depth G')); try lia.
    apply Hrun. lia.
Qed.

(** The iterated update of the footprint edge, in closed form. *)
Lemma edge_at_closed_form (k : nat) :
  edge_at G k == wheel_width (vehicle G) + of_depth k * (2 * force_spread G).
Proof.
  induction k as [|k IH].
  - unfold edge_at, of_depth. cbn. ring.
  - rewrite edge_at_S, IH. unfold of_depth.
    rewrite Nat2Z.inj_succ, <- Z.add_1_r, inject_Z_plus. ring.
Qed.


(** C3.  When the loop has finished, [total_compression] is the sum of
    [1.0 - new_layer_thickness] over the layers appended: it is that
    sum as the loop accumulates it, term after term from [0.0], and so
    equal in value to the sum taken in any order. *)
Theorem total_compression_is_sum (st : LoopState) :
  compress G = Ok st ->
  total_compression st
    = fold_left (fun acc l => acc + (1.0 - layer_thickness l)) (compressed_layers st) 0.0
  /\ total_compression st
     == Qsum (map (fun l => 1.0 - layer_thickness l) (compressed_layers st)).
Proof.
  intros Hrun.
  assert (Hfold : total_compression st
            = fold_left (fun acc l => acc + layer_compression l) (compressed_layers st) 0.0)
    by (apply (for_depths_total _ _ _ Hrun); reflexivity).
  split; [exact Hfold|].
  rewrite Hfold. apply fold_left_Qsum.
Qed.

(** The footprint edge, iteration after iteration. *)
Lemma edge_at_le (i j : nat) :
  0 <= force_spread G -> (i <= j)%nat -> edge_at G i <= edge_at G j.
Proof.
  intros Hs Hij. induction Hij as [|j Hij IH].
  - apply Qle_refl.
  - rewrite edge_at_S. lra.
Qed.

Lemma edge_at_lt (i j : nat) :
  0 < force_spread G -> (i < j)%nat -> edge_at G i < edge_at G j.
Proof.
  intros Hs Hij. induction Hij as [|j Hij IH]; rewrite edge_at_S; lra.
Qed.


(** C4.  With the density array that the profile generator computes,
    every layer that the loop appends has a thickness between 0 and 1:
    the thickness is [density [depth] / grain_density], and the density
    [1.89 * (depth + 1.69) / (depth + 2.9)] is non-negative and below
    [grain_density = 2.0] at every depth. *)
Theorem compressed_thickness_in_unit_interval (n : nat) (st : LoopState) :
  density G = fst (profile n) ->
  compress G = Ok st ->
  (forall l, In l (compressed_layers st) ->
     0 <= layer_thickness l /\ layer_thickness l <= 1) /\
  (forall depth : nat,
     fst (density_and_bearing_cap_at_depth depth) < grain_density).
Proof.
  intros Hden Hrun. split; [|intros depth; apply density_below_grain_density].
  destruct (for_depths_inv (max_depth G) 0 (initial_state G) st
              entry_state_initial Hrun) as (m & _ & [_ Hlayers] & Hcoll & _).
  intros l Hl. rewrite Hlayers in Hl.
  apply in_map_iff in Hl as (k & <- & Hk). apply in_seq in Hk.
  destruct (Hcoll k ltac:(lia)) as (_ & Hlen & _).
  cbn [layer_thickness layer_at fst snd].
  rewrite Hden, profile_spec in Hlen |- *. cbn [fst] in Hlen |- *.
  rewrite length_map in Hlen. unfold range in *. rewrite length_seq in Hlen.
  rewrite (nth_error_nth _ _ 0 (nth_error_map_seq _ n k Hlen)).
  destruct (density_below_grain_density k) as [Hlo Hhi].
  unfold grain_density in *. split.
  - apply Qle_shift_div_l; lra.
  - apply Qle_shift_div_r; lra.
Qed.


(** The downward force, iteration after iteration. *)
Lemma edge_at_positive (k : nat) :
  0 < wheel_width (vehicle G) -> 0 <= force_spread G -> 0 < edge_at G k.
Proof.
  intros Hw Hs. apply Qlt_le_trans with (edge_at G 0); [exact Hw|].
  apply edge_at_le; [exact Hs | lia].
Qed.

Lemma pressure_at_decreasing (i j : nat) :
  0 < force_per_wheel G ->
  0 < wheel_width (vehicle G) ->
  0 < force_spread G ->
  (i < j)%nat ->
  pressure_at G j < pressure_at G i.
Proof.
  intros Hf Hw Hs Hij.
  pose proof (edge_at_positive i Hw (Qlt_le_weak _ _ Hs)) as Hi.
  pose proof (edge_at_lt i j Hs Hij) as Hlt.
  unfold pressure_at. rewrite !Qsquare.
  set (a := edge_at G i) in *. set (b := edge_at G j) in *.
  set (f := force_per_wheel G) in *. clearbody a b f.
  assert (Haa : 0 < a * a) by nra.
  assert (Hbb : 0 < b * b) by nra.
  apply Qlt_shift_div_r; [exact Hbb|].
  assert (E : f / (a * a) * (b * b) == f * (b * b) / (a * a)) by (field; lra).
  rewrite E. apply Qlt_shift_div_l; [exact Haa|].
  rewrite (Qmult_comm _ (a * a)), (Qmult_comm _ (b * b)).
  apply Qmult_lt_compat_r; [exact Hf | nra].
Qed.

(** The two extremes after an iteration. *)
Lemma loop_body_extremes (depth : nat) (st st' : LoopState) (flow : Flow) :
  loop_body G depth st = Ok (flow, st') ->
  max_pressure st'
    = update_max (max_pressure st)
        (force_per_wheel G / support_footprint_edge st ^ 2) /\
  min_pressure st'
    = update_min (min_pressure st)
        (force_per_wheel G / support_footprint_edge st ^ 2).
Proof.
  unfold loop_body, bind. intros H.
  destruct (py_div _ _) as [df|] eqn:Ediv; [|discriminate].
  apply py_div_inv in Ediv as [_ ->].
  destruct (py_index (bearing_cap G) depth) as [support|]; [|discriminate].
  destruct (Qle_bool _ support).
  - injection H as <- <-. split; reflexivity.
  - destruct (py_index (density G) depth) as [pre|]; [|discriminate].
    injection H as <- <-. split; reflexivity.
Qed.

Lemma extremes_step (c : nat) (st st' : LoopState) :
  extremes_upto G c st ->
  max_pressure st' = update_max (max_pressure st) (pressure_at G c) ->
  min_pressure st' = update_min (min_pressure st) (pressure_at G c) ->
  extremes_upto G (S c) st'.
Proof.
  intros [Hmax Hmin] Hmax' Hmin'. unfold extremes_upto.
  rewrite seq_S, map_app, !fold_left_app. cbn [map fold_left Nat.add].
  now rewrite <- Hmax, <- Hmin.
Qed.

(** The extremes of a finished run are those of the downward forces
    computed: one per layer and, when the loop left by [break], the one
    of the depth where it left. *)
Lemma for_depths_extremes (n : nat) :
  forall (k : nat) (st st' : LoopState),
    entry_state G k st ->
    extremes_upto G k st ->
    for_depths G (seq k n) st = Ok st' ->
    let m := length (compressed_layers st') in
    (m < k + n)%nat /\ extremes_upto G (S m) st'
    \/ m = (k + n)%nat /\ extremes_upto G m st'.
Proof.
  induction n as [|n IH]; intros k st st' [Hedge Hlayers] Hext Hrun.
  - injection Hrun as <-. cbv zeta.
    rewrite Hlayers, length_map, length_seq, Nat.add_0_r. right. split; [reflexivity | exact Hext].
  - cbn [seq for_depths] in Hrun.
    destruct (loop_body G k st) as [[[|] st1]|] eqn:Ebody; [| |discriminate].
    + pose proof (loop_body_extremes _ _ _ _ Ebody) as [Hmax Hmin].
      rewrite Hedge in Hmax, Hmin.
      apply loop_body_inv in Ebody.
      destruct Ebody as (_ & support & _ & _ & _ & pre & Hden & _ & Hedge1 & Hlayers1).
      assert (Hentry1 : entry_state G (S k) st1).
      { split.
        - rewrite Hedge1, Hedge. reflexivity.
        - rewrite Hlayers1, Hlayers, Hedge, <- layers_snoc.
          unfold layer_at, pressure_at.
          now rewrite (nth_error_nth _ _ _ Hden). }
      pose proof (extremes_step k st st1 Hext Hmax Hmin) as Hext1.
      destruct (IH (S k) st1 st' Hentry1 Hext1 Hrun) as [[Hm He]|[Hm He]].
      * left. split; [lia | exact He].
      * right. split; [lia | exact He].
    + injection Hrun as <-.
      pose proof (loop_body_extremes _ _ _ _ Ebody) as [Hmax Hmin].
      rewrite Hedge in Hmax, Hmin.
      apply loop_body_inv in Ebody.
      destruct Ebody as (_ & support & _ & _ & _ & _ & _ & Hlayers1).
      cbv zeta. rewrite Hlayers1, Hlayers, length_map, length_seq.
      left. split; [lia|]. exact (extremes_step k st st1 Hext Hmax Hmin).
Qed.

(** Over downward forces that decrease strictly from a positive first
    one, the maximum is the first and the minimum is the last, unless
    the last is not below the initial 10000. *)
Lemma fold_update_max_decreasing (p : nat -> Q) (c : nat) :
  0 < p 0%nat ->
  (forall i j, (i < j)%nat -> p j < p i) ->
  fold_left update_max (map p (seq 0 (S c))) 0 = p 0%nat.
Proof.
  intros Hpos Hdec. induction c as [|c IH].
  - cbn. unfold update_max.
    apply Qlt_bool_iff in Hpos. now rewrite Hpos.
  - rewrite seq_S, map_app, fold_left_app, IH. cbn [map fold_left Nat.add].
    unfold update_max.
    assert (Hlt : p (S c) < p 0%nat) by (apply Hdec; lia).
    destruct (Qlt_bool (p 0%nat) (p (S c))) eqn:E; [|reflexivity].
    apply Qlt_bool_iff in E. exfalso. lra.
Qed.

Lemma fold_update_min_decreasing (p : nat -> Q) (c : nat) :
  (forall i j, (i < j)%nat -> p j < p i) ->
  fold_left update_min (map p (seq 0 (S c))) 10000 = update_min 10000 (p c).
Proof.
  intros Hdec. induction c as [|c IH].
  - reflexivity.
  - rewrite seq_S, map_app, fold_left_app, IH. cbn [map fold_left Nat.add].
    assert (Hlt : p (S c) < p c) by (apply Hdec; lia).
    unfold update_min.
    destruct (Qlt_bool (p c) 10000) eqn:E1.
    + apply Qlt_bool_iff in E1.
      assert (H1 : Qlt_bool (p (S c)) (p c) = true) by (apply Qlt_bool_iff; exact Hlt).
      assert (H2 : Qlt_bool (p (S c)) 10000 = true) by (apply Qlt_bool_iff; lra).
      now rewrite H1, H2.
    + reflexivity.
Qed.

(** The variables [max_pressure] and [min_pressure] of a finished run
    that collapsed a layer, under a positive wheel width, a positive
    spread and bearing capacities that are not negative:
    [max_pressure] is the downward force of depth 0, and [min_pressure]
    is the last downward force computed when that is below the initial
    10000, and 10000 otherwise. *)
Lemma pressure_extremes (st : LoopState) :
  0 < wheel_width (vehicle G) ->
  0 < force_spread G ->
  (forall k c, nth_error (bearing_cap G) k = Some c -> 0 <= c) ->
  compress G = Ok st ->
  compressed_layers st <> [] ->
  let m := length (compressed_layers st) in
  max_pressure st = force_per_wheel G / wheel_width (vehicle G) ^ 2 /\
  ((m < max_depth G)%nat ->
   min_pressure st = update_min 10000 (pressure_at G m)) /\
  (m = max_depth G ->
   min_pressure st = update_min 10000 (pressure_at G (m - 1))).
Proof.
  intros Hw Hs Hcaps Hrun Hne. cbv zeta.
  destruct (for_depths_inv (max_depth G) 0 (initial_state G) st
              entry_state_initial Hrun) as (m & Hm & [Hedge Hlayers] & Hcoll & Hend).
  assert (Hlen : length (compressed_layers st) = m)
    by (rewrite Hlayers, length_map, length_seq; reflexivity).
  assert (Hpos : (0 < m)%nat).
  { destruct m; [|lia]. rewrite Hlayers in Hne. now contradiction Hne. }
  assert (Hf : 0 < force_per_wheel G).
  { destruct (Hcoll 0%nat ltac:(lia)) as (Hnz & _ & c & Hc & Hlt).
    pose proof (Hcaps _ _ Hc) as Hc0.
    pose proof (edge_at_positive 0 Hw (Qlt_le_weak _ _ Hs)) as He.
    unfold pressure_at in Hlt. rewrite Qsquare in Hlt.
    set (a := edge_at G 0) in *. set (f := force_per_wheel G) in *.
    clearbody a f.
    assert (Haa : 0 < a * a) by nra.
    destruct (Qlt_le_dec 0 f) as [Hpos'|Hneg]; [exact Hpos'|].
    exfalso. apply (Qlt_not_le _ _ Hlt).
    apply Qle_trans with 0; [|exact Hc0].
    apply Qle_shift_div_r; [exact Haa | lra]. }
  assert (Hdec : forall i j, (i < j)%nat -> pressure_at G j < pressure_at G i)
    by (intros i j Hij; apply pressure_at_decreasing; assumption).
  assert (Hp0 : 0 < pressure_at G 0).
  { destruct (Hcoll 0%nat ltac:(lia)) as (_ & _ & c & Hc & Hlt).
    apply Qle_lt_trans with c; [exact (Hcaps _ _ Hc) | exact Hlt]. }
  assert (Hinit : extremes_upto G 0 (initial_state G)) by (split; reflexivity).
  pose proof (for_depths_extremes (max_depth G) 0 (initial_state G) st
                entry_state_initial Hinit Hrun) as Hext.
  cbv zeta in Hext. rewrite Hlen in *.
  destruct Hext as [[Hlt [Hmax Hmin]]|[Heq [Hmax Hmin]]].
  - rewrite (fold_update_max_decreasing _ m Hp0 Hdec) in Hmax.
    rewrite (fold_update_min_decreasing _ m Hdec) in Hmin.
    split; [exact Hmax|]. split; [intros _; exact Hmin | intros Heq; lia].
  - destruct m as [|m']; [lia|].
    rewrite (fold_update_max_decreasing _ m' Hp0 Hdec) in Hmax.
    rewrite (fold_update_min_decreasing _ m' Hdec) in Hmin.
    split; [exact Hmax|]. split; [intros Hlt; lia|].
    intros _. now rewrite Nat.sub_1_r.
Qed.


(** C6, as the script behaves.  When the range holds the single depth 0
    and the bearing capacity there is below the downward force, the loop
    raises nothing: it appends the layer of depth 0, runs off the end of
    the range and leaves [first_uncompressed_layer] at its initial
    value 0. *)
Theorem single_depth_collapse_returns_zero :
  max_depth G = 1%nat ->
  collapses_at G 0 ->
  exists st : LoopState,
    compress G = Ok st /\
    first_uncompressed_layer st = 0%nat /\
    compressed_layers st = [layer_at G 0].
Proof.
  intros Hmax Hcoll.
  destruct (for_depths_exhausts 1 0 (initial_state G) entry_state_initial)
    as (st & Hrun & [_ Hlayers] & Hfirst).
  { intros j Hj. assert (j = 0%nat) as -> by lia. exact Hcoll. }
  exists st. unfold compress, range. rewrite Hmax.
  split; [exact Hrun|]. split; [exact Hfirst | exact Hlayers].
Qed.

End CompressionFacts.

(** C8.  For every depth from 0 to 29 the density is the entry of the
    array that the profile generator fills for [max_depth = 30]; it
    lies between 1.10 and 1.82 (more closely, between [min_density] and
    [max_density + 0.001]); and it does not decrease with depth. *)
Theorem density_monotone_and_bounded (depth : nat) :
  (depth <= 29)%nat ->
  let density_of d := fst (density_and_bearing_cap_at_depth d) in
  nth_error (fst (profile 30)) depth = Some (density_of depth) /\
  (1.10 <= density_of depth /\ density_of depth <= 1.82) /\
  (min_density <= density_of depth /\ density_of depth < max_density + 0.001) /\
  (forall deeper : nat,
     (depth <= deeper)%nat -> density_of depth <= density_of deeper).
Proof.
  intros Hd. cbv zeta.
  assert (Hlo : min_density <= fst (density_and_bearing_cap_at_depth depth)).
  { apply Qle_trans with (fst (density_and_bearing_cap_at_depth 0)).
    - vm_compute. discriminate.
    - apply density_monotone. lia. }
  assert (Hhi : fst (density_and_bearing_cap_at_depth depth) < max_density + 0.001).
  { apply Qle_lt_trans with (fst (density_and_bearing_cap_at_depth 29)).
    - apply density_monotone. exact Hd.
    - vm_compute. reflexivity. }
  unfold min_density, max_density in *.
  split; [|split; [|split]].
  - rewrite profile_spec. cbn [fst].
    apply (nth_error_map_seq (fun d => fst (density_and_bearing_cap_at_depth d))). lia.
  - split; lra.
  - split; assumption.
  - intros deeper Hle. apply density_monotone. exact Hle.
Qed.

(** ** The script *)

Lemma globals_Ok (cfg : VehicleConfig) (spread : Q) (n : nat) :
  ~ n_wheels cfg == 0 ->
  globals cfg spread n
  = Ok {| vehicle         := cfg;
          force_per_wheel := mass_of_vehicle cfg * lunar_gravity / n_wheels cfg;
          force_spread    := spread;
          max_depth       := n;
          density         := fst (profile n);
          bearing_cap     := snd (profile n) |}.
Proof.
  intros Hnz. unfold globals, bind. rewrite (py_div_Ok _ _ Hnz).
  destruct (profile n). reflexivity.
Qed.

Lemma globals_inv (cfg : VehicleConfig) (spread : Q) (n : nat) (G : Globals) :
  globals cfg spread n = Ok G ->
  vehicle G = cfg /\
  force_per_wheel G = mass_of_vehicle cfg * lunar_gravity / n_wheels cfg /\
  force_spread G = spread /\
  max_depth G = n /\
  density G = fst (profile n) /\
  bearing_cap G = snd (profile n).
Proof.
  unfold globals, bind. intros H.
  destruct (py_div _ _) as [f|] eqn:Ediv; [|discriminate].
  apply py_div_inv in Ediv as [_ ->].
  destruct (profile n). injection H as <-. cbn. tauto.
Qed.

Lemma simulate_inv (cfg : VehicleConfig) (spread : Q) (n : nat)
      (G : Globals) (st : LoopState) :
  simulate cfg spread n = Ok (G, st) ->
  globals cfg spread n = Ok G /\ compress G = Ok st.
Proof.
  unfold simulate, bind. intros H.
  destruct (globals cfg spread n) as [G0|]; [|discriminate].
  destruct (compress G0) as [st0|] eqn:Erun; [|discriminate].
  injection H as <- <-. split; [reflexivity | exact Erun].
Qed.


(** C9.  When [scenario] is neither of the two names, the script
    prints its message and stops at once on an uncaught exception: the
    interpreter exits with status 1, and the rendering part, which writes
    the image, is never run. *)
Theorem unrecognized_scenario_is_fatal (scenario : string) (spread : Q) :
  scenario <> "Moon_Buggy"%string ->
  scenario <> "PP&L"%string ->
  fst (script scenario spread) = ["Bad scenario!"%string] /\
  snd (script scenario spread) = Raised (NameError "sys") /\
  exit_status (snd (script scenario spread)) = Some 1%Z /\
  runs_rendering (snd (script scenario spread)) = false.
Proof.
  intros H1 H2. unfold script, select_scenario.
  apply String.eqb_neq in H1, H2. rewrite H1, H2. cbn. tauto.
Qed.

(** ** The PP&L scenario *)

(** The globals of the PP&L run, for a spread factor [spread]. *)
Lemma ppl_globals (spread : Q) :
  globals ppl spread 30
  = Ok {| vehicle         := ppl;
          force_per_wheel := 6000 * lunar_gravity / 4;
          force_spread    := spread;
          max_depth       := 30;
          density         := fst (profile 30);
          bearing_cap     := snd (profile 30) |}.
Proof. apply globals_Ok. discriminate. Qed.

(** The footprint edge of the PP&L run at depth [k], between the
    bounds that the bounds on the spread factor give. *)
Lemma ppl_edge_bounds (G : Globals) (k : nat) :
  wheel_width (vehicle G) = 10 ->
  0.087 <= force_spread G -> force_spread G <= 0.088 ->
  10 + of_depth k * 0.174 <= edge_at G k /\
  edge_at G k <= 10 + of_depth k * 0.176.
Proof.
  intros Hw Hlo Hhi. rewrite edge_at_closed_form, Hw.
  pose proof (of_depth_nonneg k) as Hk.
  set (x := of_depth k) in *. set (s := force_spread G) in *. clearbody x s.
  split; nra.
Qed.

(** C7.  The PP&L scenario: 6000 kg, wheels 10 cm wide, gravity 1.6,
    4 wheels.  The force per wheel is 2400 N; the downward force at
    depth 0 is 24 N/cm2; the bearing capacity there is 0.03, less than
    24, so depth 0 collapses; and the loop goes on collapsing, through
    depths 0 to 8, until at depth 9 the bearing capacity is greater than
    or equal to the downward force of that iteration, where it leaves.
    The spread factor is tan 5 degrees = 0.08748...; the run is the same
    for every value from 0.087 to 0.088. *)
Theorem ppl_scenario (spread : Q) :
  0.087 <= spread ->
  spread <= 0.088 ->
  exists (G : Globals) (st : LoopState),
    simulate ppl spread 30 = Ok (G, st) /\
    force_per_wheel G == 2400 /\
    pressure_at G 0 == 24 /\
    (exists support,
       nth_error (bearing_cap G) 0 = Some support /\
       support == 0.03 /\ support < pressure_at G 0) /\
    (forall depth, (depth < 9)%nat -> collapses_at G depth) /\
    supported_at G 9 /\
    first_uncompressed_layer st = 9%nat /\
    length (compressed_layers st) = 9%nat.
Proof.
  intros Hlo Hhi.
  set (G := {| vehicle         := ppl;
               force_per_wheel := 6000 * lunar_gravity / 4;
               force_spread    := spread;
               max_depth       := 30;
               density         := fst (profile 30);
               bearing_cap     := snd (profile 30) |}).
  assert (Hf : force_per_wheel G == 2400) by reflexivity.
  assert (Hedge : forall k,
             10 + of_depth k * 0.174 <= edge_at G k /\
             edge_at G k <= 10 + of_depth k * 0.176)
    by (intros k; apply ppl_edge_bounds; [reflexivity | exact Hlo | exact Hhi]).
  assert (Hcoll : forall depth, (depth < 9)%nat -> collapses_at G depth).
  { intros depth Hd. destruct (Hedge depth) as [He1 He2].
    pose proof (of_depth_nonneg depth) as Hk.
    assert (Hpos : 0 < edge_at G depth) by lra.
    unfold collapses_at, pressure_at. rewrite Qsquare.
    split; [nra|]. split.
    { cbn [density G]. rewrite profile_spec. cbn [fst].
      rewrite length_map. unfold range. rewrite length_seq. lia. }
    do 9 (destruct depth as [|depth];
          [eexists; split; [vm_compute; reflexivity|];
           apply (below_pressure _ _ _ _ Hpos He2);
           [vm_compute; discriminate | vm_compute; reflexivity] |]).
    lia. }
  assert (Hsup : supported_at G 9).
  { destruct (Hedge 9%nat) as [He1 He2].
    assert (Hpos : 0 < edge_at G 9)
      by (apply Qlt_le_trans with (10 + of_depth 9 * 0.174); [reflexivity | exact He1]).
    unfold supported_at, pressure_at. rewrite Qsquare.
    split; [nra|].
    eexists; split; [vm_compute; reflexivity|].
    apply (at_least_pressure _ _ _ _ (eq_refl : 0 < 10 + of_depth 9 * 0.174) He1);
      vm_compute; discriminate. }
  destruct (for_depths_stops G 9 0 (initial_state G) (entry_state_initial G)
              (Nat.le_0_l 9)) as (st & Hrun & [_ Hlayers] & Hfirst);
    [intros j Hj; apply Hcoll; lia | exact Hsup |].
  assert (Hlen : length (compressed_layers st) = 9%nat)
    by (rewrite Hlayers, length_map, length_seq; reflexivity).
  specialize (Hrun 30%nat ltac:(lia)).
  exists G, st. split.
  { unfold simulate, bind. rewrite ppl_globals. fold G.
    unfold compress, range. cbn [max_depth G]. rewrite Hrun. reflexivity. }
  split; [exact Hf|]. split; [reflexivity|]. split.
  { eexists. split; [vm_compute; reflexivity|]. split; reflexivity. }
  split; [exact Hcoll|]. split; [exact Hsup|]. split; assumption.
Qed.

(** ** The theorems at the example runs *)

Lemma tie_collapses_at_0 : collapses_at tie_globals 0.
Proof.
  split; [discriminate|]. split; [cbn; lia|].
  exists 0.03. split; reflexivity.
Defined.

(** At depth 1 the bearing capacity, 24, equals the downward force. *)
Lemma tie_supported_at_1 : supported_at tie_globals 1.
Proof.
  split; [discriminate|].
  exists 24. split; [reflexivity | discriminate].
Defined.

Lemma first_supported_depth_ends_loop_witness :
  pressure_at tie_globals 1 == 24 /\
  exists st : LoopState,
    compress tie_globals = Ok st /\
    first_uncompressed_layer st = 1%nat /\
    compressed_layers st = map (layer_at tie_globals) (seq 0 1) /\
    length (compressed_layers st) = 1%nat /\
    forall G' : Globals,
      same_down_to 1 tie_globals G' -> (1 < max_depth G')%nat -> compress G' = Ok st.
Proof.
  split; [reflexivity|].
  apply (first_supported_depth_ends_loop tie_globals 1).
  - cbn. lia.
  - intros k Hk. assert (k = 0%nat) as -> by lia. exact tie_collapses_at_0.
  - exact tie_supported_at_1.
Defined.


Lemma total_compression_is_sum_witness :
  compress spread_globals = Ok spread_state /\
  total_compression spread_state
    = fold_left (fun acc l => acc + (1.0 - layer_thickness l))
        (compressed_layers spread_state) 0.0 /\
  total_compression spread_state
    == Qsum (map (fun l => 1.0 - layer_thickness l) (compressed_layers spread_state)).
Proof.
  split; [vm_compute; reflexivity|].
  apply (total_compression_is_sum spread_globals spread_state).
  vm_compute. reflexivity.
Defined.

Lemma compressed_thickness_in_unit_interval_witness :
  density one_depth_globals = fst (profile 1) /\
  compress one_depth_globals = Ok one_depth_state /\
  (forall l, In l (compressed_layers one_depth_state) ->
     0 <= layer_thickness l /\ layer_thickness l <= 1) /\
  (forall depth : nat,
     fst (density_and_bearing_cap_at_depth depth) < grain_density).
Proof.
  split; [reflexivity|]. split; [vm_compute; reflexivity|].
  apply (compressed_thickness_in_unit_interval one_depth_globals 1 one_depth_state).
  - reflexivity.
  - vm_compute. reflexivity.
Defined.


(** C6, as the specification states it, fails: the run on a profile of
    one depth that cannot carry the PP&L wheel raises no exception; it
    returns, with [first_uncompressed_layer = 0]. *)
Lemma single_depth_collapse_raises_nothing :
  ~ (exists e : PyExn, simulate ppl 0.0875 1 = Raised e) /\
  simulate ppl 0.0875 1 = Ok (one_depth_globals, one_depth_state) /\
  first_uncompressed_layer one_depth_state = 0%nat.
Proof.
  assert (Hrun : simulate ppl 0.0875 1 = Ok (one_depth_globals, one_depth_state))
    by (vm_compute; reflexivity).
  split; [|split; [exact Hrun | reflexivity]].
  intros [e He]. rewrite Hrun in He. discriminate.
Qed.

Lemma one_depth_collapses_at_0 : collapses_at one_depth_globals 0.
Proof.
  split; [discriminate|]. split; [cbn; lia|].
  eexists. split; [vm_compute; reflexivity | reflexivity].
Defined.

Lemma single_depth_collapse_returns_zero_witness :
  max_depth one_depth_globals = 1%nat /\
  collapses_at one_depth_globals 0 /\
  exists st : LoopState,
    compress one_depth_globals = Ok st /\
    first_uncompressed_layer st = 0%nat /\
    compressed_layers st = [layer_at one_depth_globals 0].
Proof.
  split; [reflexivity|]. split; [exact one_depth_collapses_at_0|].
  apply (single_depth_collapse_returns_zero one_depth_globals).
  - reflexivity.
  - exact one_depth_collapses_at_0.
Defined.

Lemma ppl_scenario_witness :
  0.087 <= 0.08748866352592401 /\
  0.08748866352592401 <= 0.088 /\
  exists (G : Globals) (st : LoopState),
    simulate ppl 0.08748866352592401 30 = Ok (G, st) /\
    force_per_wheel G == 2400 /\
    pressure_at G 0 == 24 /\
    (exists support,
       nth_error (bearing_cap G) 0 = Some support /\
       support == 0.03 /\ support < pressure_at G 0) /\
    (forall depth, (depth < 9)%nat -> collapses_at G depth) /\
    supported_at G 9 /\
    first_uncompressed_layer st = 9%nat /\
    length (compressed_layers st) = 9%nat.
Proof.
  split; [discriminate|]. split; [discriminate|].
  apply (ppl_scenario 0.08748866352592401); discriminate.
Defined.

Lemma density_monotone_and_bounded_witness :
  (29 <= 29)%nat /\
  nth_error (fst (profile 30)) 29 = Some (fst (density_and_bearing_cap_at_depth 29)) /\
  (1.10 <= fst (density_and_bearing_cap_at_depth 29) /\
   fst (density_and_bearing_cap_at_depth 29) <= 1.82) /\
  (min_density <= fst (density_and_bearing_cap_at_depth 29) /\
   fst (density_and_bearing_cap_at_depth 29) < max_density + 0.001) /\
  (forall deeper : nat,
     (29 <= deeper)%nat ->
     fst (density_and_bearing_cap_at_depth 29)
     <= fst (density_and_bearing_cap_at_depth deeper)).
Proof.
  split; [lia|].
  apply (density_monotone_and_bounded 29). lia.
Defined.

Lemma unrecognized_scenario_is_fatal_witness :
  "Rover"%string <> "Moon_Buggy"%string /\
  "Rover"%string <> "PP&L"%string /\
  fst (script "Rover" 0.0875) = ["Bad scenario!"%string] /\
  snd (script "Rover" 0.0875) = Raised (NameError "sys") /\
  exit_status (snd (script "Rover" 0.0875)) = Some 1%Z /\
  runs_rendering (snd (script "Rover" 0.0875)) = false.
Proof.
  split; [discriminate|]. split; [discriminate|].
  apply (unrecognized_scenario_is_fatal "Rover" 0.0875); discriminate.
Defined.


(** * Further properties of the profile and of the loop *)

(** ** Bearing capacity *)


Lemma bearing_cap_monotone (shallow deep : nat) :
  (shallow <= deep)%nat ->
  snd (density_and_bearing_cap_at_depth shallow)
  <= snd (density_and_bearing_cap_at_depth deep).
Proof.
  intros Hle. pose proof (of_depth_le _ _ Hle) as H.
  cbn [snd density_and_bearing_cap_at_depth].
  assert (Hcm : bearing_per_cm == 13 # 6) by reflexivity.
  rewrite Hcm. nra.
Qed.

(** ** The arrays of the profile *)

Lemma profile_lengths (n : nat) :
  length (fst (profile n)) = n /\ length (snd (profile n)) = n.
Proof.
  rewrite profile_spec. cbn [fst snd]. unfold range.
  now rewrite !length_map, length_seq.
Qed.

Lemma profile_nth (n depth : nat) :
  (depth < n)%nat ->
  nth_error (fst (profile n)) depth
    = Some (fst (density_and_bearing_cap_at_depth depth)) /\
  nth_error (snd (profile n)) depth
    = Some (snd (density_and_bearing_cap_at_depth depth)).
Proof.
  intros H. rewrite profile_spec. cbn [fst snd]. unfold range. split.
  - apply (nth_error_map_seq (fun d => fst (density_and_bearing_cap_at_depth d))). exact H.
  - apply (nth_error_map_seq (fun d => snd (density_and_bearing_cap_at_depth d))). exact H.
Qed.

(** The loop of lines 123-127 leaves two arrays of [max_depth] entries
    each; entry [depth] of each is the value computed for that depth,
    and an index from [max_depth] on is out of range. *)
Theorem profile_arrays (n depth : nat) :
  length (fst (profile n)) = n /\
  length (snd (profile n)) = n /\
  ((depth < n)%nat ->
   py_index (fst (profile n)) depth
     = Ok (fst (density_and_bearing_cap_at_depth depth)) /\
   py_index (snd (profile n)) depth
     = Ok (snd (density_and_bearing_cap_at_depth depth))) /\
  ((n <= depth)%nat ->
   py_index (fst (profile n)) depth = Raised IndexError /\
   py_index (snd (profile n)) depth = Raised IndexError).
Proof.
  destruct (profile_lengths n) as [Hd Hc].
  split; [exact Hd|]. split; [exact Hc|]. split.
  - intros H. destruct (profile_nth n depth H) as [H1 H2].
    unfold py_index. now rewrite H1, H2.
  - intros H. unfold py_index.
    assert (H1 : nth_error (fst (profile n)) depth = None)
      by (apply nth_error_None; lia).
    assert (H2 : nth_error (snd (profile n)) depth = None)
      by (apply nth_error_None; lia).
    now rewrite H1, H2.
Qed.

(** ** Runs that raise and runs that do not *)

Section LoopRuns.

Variable G : Globals.


(** A wheel of width zero: the first iteration divides by zero. *)
Lemma compress_zero_width :
  wheel_width (vehicle G) == 0 ->
  (0 < max_depth G)%nat ->
  compress G = Raised ZeroDivisionError.
Proof.
  intros Hw Hn. unfold compress, range.
  destruct (max_depth G) as [|n]; [lia|].
  cbn [seq for_depths]. unfold loop_body, bind, py_div. cbn [initial_state support_footprint_edge].
  assert (Hz : Qeq_bool (wheel_width (vehicle G) ^ 2) 0 = true).
  { apply Qeq_bool_iff. rewrite Qsquare, Hw. reflexivity. }
  now rewrite Hz.
Qed.

(** In a finished run [first_uncompressed_layer] is the number of
    layers appended, the depth where the loop left, or it is still the
    initial 0 because the range was exhausted. *)
Lemma first_uncompressed_layer_inv (st : LoopState) :
  compress G = Ok st ->
  let m := length (compressed_layers st) in
  (m < max_depth G)%nat /\ first_uncompressed_layer st = m /\ supported_at G m
  \/ m = max_depth G /\ first_uncompressed_layer st = 0%nat /\
     forall depth, (depth < max_depth G)%nat -> collapses_at G depth.
Proof.
  intros Hrun.
  destruct (for_depths_inv G (max_depth G) 0 (initial_state G) st
              (entry_state_initial G) Hrun) as (m & Hm & [_ Hlayers] & Hcoll & Hend).
  cbv zeta. rewrite Hlayers, length_map, length_seq.
  destruct Hend as [(Hlt & Hsup & Hf)|(-> & Hf)].
  - left. split; [lia|]. split; assumption.
  - right. split; [lia|]. split; [exact Hf|].
    intros depth Hd. apply Hcoll. lia.
Qed.

(** The downward force does not grow with depth under a load that is
    not negative. *)
Lemma pressure_at_le (i j : nat) :
  0 <= force_per_wheel G ->
  0 < wheel_width (vehicle G) ->
  0 <= force_spread G ->
  (i <= j)%nat ->
  pressure_at G j <= pressure_at G i.
Proof.
  intros Hf Hw Hs Hij.
  pose proof (edge_at_positive G i Hw Hs) as Hi.
  pose proof (edge_at_le G i j Hs Hij) as Hle.
  unfold pressure_at. rewrite !Qsquare.
  set (a := edge_at G i) in *. set (b := edge_at G j) in *.
  set (f := force_per_wheel G) in *. clearbody a b f.
  assert (Haa : 0 < a * a) by nra.
  assert (Hbb : 0 < b * b) by nra.
  assert (Hsq : a * a <= b * b) by nra.
  apply Qle_shift_div_r; [exact Hbb|].
  assert (E : f / (a * a) * (b * b) == f * (b * b) / (a * a)) by (field; lra).
  rewrite E. apply Qle_shift_div_l; [exact Haa|].
  rewrite (Qmult_comm _ (a * a)), (Qmult_comm _ (b * b)).
  apply Qmult_le_compat_r; [exact Hsq | exact Hf].
Qed.

Lemma pressure_at_negative (k : nat) :
  force_per_wheel G < 0 ->
  0 < wheel_width (vehicle G) ->
  0 <= force_spread G ->
  pressure_at G k < 0.
Proof.
  intros Hf Hw Hs.
  pose proof (edge_at_positive G k Hw Hs) as Hk.
  unfold pressure_at. rewrite Qsquare.
  set (a := edge_at G k) in *. set (f := force_per_wheel G) in *. clearbody a f.
  assert (Haa : 0 < a * a) by nra.
  apply Qlt_shift_div_r; [exact Haa | lra].
Qed.

End LoopRuns.




(** A vehicle without wheels stops the script at line 79, and a wheel
    of width zero stops it in the first iteration of the loop, both by
    a division by zero. *)
Theorem simulate_divides_by_zero (cfg : VehicleConfig) (spread : Q) (n : nat) :
  n_wheels cfg == 0 \/ (wheel_width cfg == 0 /\ (0 < n)%nat) ->
  simulate cfg spread n = Raised ZeroDivisionError.
Proof.
  intros H. unfold simulate, bind.
  destruct (Qeq_bool (n_wheels cfg) 0) eqn:En.
  - unfold globals, bind, py_div. now rewrite En.
  - assert (Hn : ~ n_wheels cfg == 0).
    { intros Hz. apply Qeq_bool_iff in Hz. congruence. }
    destruct H as [Hz|[Hw Hpos]]; [contradiction|].
    rewrite (globals_Ok cfg spread n Hn).
    rewrite compress_zero_width; [reflexivity | exact Hw | exact Hpos].
Qed.

Lemma simulate_divides_by_zero_witness :
  (n_wheels {| vehicle_name := "Sled"; mass_of_vehicle := 100;
               wheel_width := 10; n_wheels := 0 |} == 0
   \/ (wheel_width {| vehicle_name := "Sled"; mass_of_vehicle := 100;
                      wheel_width := 10; n_wheels := 0 |} == 0 /\ (0 < 30)%nat)) /\
  simulate {| vehicle_name := "Sled"; mass_of_vehicle := 100;
              wheel_width := 10; n_wheels := 0 |} 0.0875 30
  = Raised ZeroDivisionError.
Proof.
  split; [left; reflexivity|].
  apply simulate_divides_by_zero. left. reflexivity.
Defined.

(** What [first_uncompressed_layer] tells.  After a run it is the
    number of layers appended whenever the loop met a depth that
    supports the load; otherwise every depth of the profile collapsed
    and it is 0, the value it also has when the surface itself supports
    the load. *)
Theorem first_uncompressed_layer_meaning
    (cfg : VehicleConfig) (spread : Q) (n : nat) (G : Globals) (st : LoopState) :
  simulate cfg spread n = Ok (G, st) ->
  let m := length (compressed_layers st) in
  (m < n)%nat /\ first_uncompressed_layer st = m /\ supported_at G m
  \/ m = n /\ first_uncompressed_layer st = 0%nat /\
     forall depth, (depth < n)%nat -> collapses_at G depth.
Proof.
  intros Hsim. apply simulate_inv in Hsim as [HG Hrun].
  apply globals_inv in HG as (_ & _ & _ & Hmax & _ & _).
  pose proof (first_uncompressed_layer_inv G st Hrun) as H.
  cbv zeta in H |- *. rewrite Hmax in H. exact H.
Qed.

Lemma first_uncompressed_layer_meaning_witness :
  simulate ppl 0.0875 1 = Ok (one_depth_globals, one_depth_state) /\
  ((length (compressed_layers one_depth_state) < 1)%nat /\
   first_uncompressed_layer one_depth_state = length (compressed_layers one_depth_state) /\
   supported_at one_depth_globals (length (compressed_layers one_depth_state))
   \/ length (compressed_layers one_depth_state) = 1%nat /\
      first_uncompressed_layer one_depth_state = 0%nat /\
      forall depth, (depth < 1)%nat -> collapses_at one_depth_globals depth).
Proof.
  split; [vm_compute; reflexivity|].
  apply (first_uncompressed_layer_meaning ppl 0.0875 1).
  vm_compute. reflexivity.
Defined.

(** Below the depth where the loop leaves, nothing would collapse: on
    the profile of the script, a depth that supports the load is
    followed by depths that all support it, for the bearing capacity
    grows with depth and the downward force does not. *)
Theorem support_persists_below
    (cfg : VehicleConfig) (spread : Q) (n : nat) (G : Globals) (d deeper : nat) :
  globals cfg spread n = Ok G ->
  0 < wheel_width cfg ->
  0 <= spread ->
  supported_at G d ->
  (d <= deeper)%nat ->
  (deeper < n)%nat ->
  supported_at G deeper.
Proof.
  intros HG Hw Hs (Hnz & c & Hc & Hle) Hdd Hn.
  apply globals_inv in HG as (Hveh & _ & Hspread & _ & _ & Hcap).
  rewrite <- Hveh in Hw. rewrite <- Hspread in Hs.
  rewrite Hcap in Hc.
  destruct (profile_nth n d ltac:(lia)) as [_ Hcd].
  destruct (profile_nth n deeper Hn) as [_ Hcdeep].
  unfold supported_at. rewrite Hcap. split.
  - pose proof (edge_at_positive G deeper Hw Hs) as He. rewrite Qsquare. nra.
  - eexists. split; [exact Hcdeep|].
    assert (c = snd (density_and_bearing_cap_at_depth d)) as -> by congruence.
    pose proof (bearing_cap_monotone d deeper Hdd) as Hmono.
    destruct (Qlt_le_dec (force_per_wheel G) 0) as [Hneg|Hpos].
    + pose proof (pressure_at_negative G deeper Hneg Hw Hs) as Hp.
      pose proof (bearing_cap_positive deeper) as Hb. lra.
    + pose proof (pressure_at_le G d deeper Hpos Hw Hs Hdd) as Hp. lra.
Qed.

(** * Properties of the rendering *)

(** ** Gray values *)

Lemma of_depth_le_const (depth n : nat) (q : Q) :
  q = of_depth n -> (depth <= n)%nat -> of_depth depth <= q.
Proof. intros -> H. apply (of_depth_le depth n H). Qed.

Lemma of_depth_ge_const (depth n : nat) (q : Q) :
  q = of_depth n -> (n <= depth)%nat -> q <= of_depth depth.
Proof. intros -> H. apply (of_depth_le n depth H). Qed.

(** The gray value of a band is a colour intensity between 0 and 0.9,
    and a deeper band is never lighter. *)
Theorem gray_value_darkens (shallow deep : nat) :
  (shallow <= deep)%nat ->
  gray_value_for_depth deep <= gray_value_for_depth shallow /\
  0 <= gray_value_for_depth deep /\
  gray_value_for_depth shallow <= 0.9.
Proof.
  intros Hle. unfold gray_value_for_depth.
  pose proof (of_depth_nonneg shallow) as Hs0.
  pose proof (of_depth_le _ _ Hle) as Hsd.
  destruct (Nat.leb_spec shallow 6) as [Hs6|Hs6];
    [pose proof (of_depth_le_const shallow 6 6 eq_refl Hs6) as Hsa
    |pose proof (of_depth_ge_const shallow 7 7 eq_refl Hs6) as Hsa];
  (destruct (Nat.leb_spec shallow 11) as [Hs11|Hs11];
    [pose proof (of_depth_le_const shallow 11 11 eq_refl Hs11) as Hsb
    |pose proof (of_depth_ge_const shallow 12 12 eq_refl Hs11) as Hsb]);
  (destruct (Nat.leb_spec deep 6) as [Hd6|Hd6];
    [pose proof (of_depth_le_const deep 6 6 eq_refl Hd6) as Hda
    |pose proof (of_depth_ge_const deep 7 7 eq_refl Hd6) as Hda]);
  (destruct (Nat.leb_spec deep 11) as [Hd11|Hd11];
    [pose proof (of_depth_le_const deep 11 11 eq_refl Hd11) as Hdb
    |pose proof (of_depth_ge_const deep 12 12 eq_refl Hd11) as Hdb]);
  try lia; repeat split; lra.
Qed.

(** ** The two loops of the rendering *)

Lemma Qsum_app (l1 l2 : list Q) : Qsum (l1 ++ l2) == Qsum l1 + Qsum l2.
Proof.
  unfold Qsum. induction l1 as [|x l1 IH]; cbn [app fold_right].
  - ring.
  - rewrite IH. ring.
Qed.

Lemma map_nth_seq {A B : Type} (f : A -> B) (l : list A) (d : A) :
  map (fun j => f (nth j l d)) (seq 0 (length l)) = map f l.
Proof.
  induction l as [|a l IH].
  - reflexivity.
  - cbn [length seq map nth]. f_equal.
    rewrite <- seq_shift, map_map. exact IH.
Qed.

Lemma update_min_le_l (m p : Q) : update_min m p <= m.
Proof.
  unfold update_min. destruct (Qlt_bool p m) eqn:E.
  - apply Qlt_bool_iff in E. lra.
  - apply Qle_refl.
Qed.

Lemma update_min_le_r (m p : Q) : update_min m p <= p.
Proof.
  unfold update_min. destruct (Qlt_bool p m) eqn:E.
  - apply Qle_refl.
  - unfold Qlt_bool in E. apply negb_false_iff, Qle_bool_iff in E. exact E.
Qed.

Section RenderingFacts.

Variable G : Globals.
Variable st : LoopState.

(** One band of the profile. *)
Lemma draw_band_Ok (i : nat) (rs : RenderState) :
  (i < length (density G))%nat ->
  (i < length (bearing_cap G))%nat ->
  exists rs' : RenderState,
    draw_band G st i rs = Ok rs' /\
    y rs' = y rs + pixels_per_cm /\
    first_uncompressed_layer_y rs'
      = (if (i =? first_uncompressed_layer st)%nat
         then y rs else first_uncompressed_layer_y rs) /\
    g rs' = Some (if (i <? 4)%nat then black else white) /\
    first_layer_width rs' = first_layer_width rs /\
    first_layer_left_edge rs' = first_layer_left_edge rs /\
    length (drawings rs') = (length (drawings rs) + 4)%nat.
Proof.
  intros Hd Hc. unfold draw_band, bind, py_index.
  destruct (nth_error (density G) i) as [d|] eqn:Ed;
    [|apply nth_error_None in Ed; lia].
  destruct (nth_error (bearing_cap G) i) as [c|] eqn:Ec;
    [|apply nth_error_None in Ec; lia].
  eexists. split; [reflexivity|]. cbn.
  repeat split. rewrite length_app. reflexivity.
Qed.

Lemma draw_band_short (i : nat) (rs : RenderState) :
  (length (density G) <= i)%nat \/ (length (bearing_cap G) <= i)%nat ->
  draw_band G st i rs = Raised IndexError.
Proof.
  intros H. unfold draw_band, bind, py_index.
  destruct (nth_error (density G) i) as [d|] eqn:Ed; [|reflexivity].
  destruct (nth_error (bearing_cap G) i) as [c|] eqn:Ec; [|reflexivity].
  exfalso. destruct H as [H|H].
  - apply nth_error_None in H. congruence.
  - apply nth_error_None in H. congruence.
Qed.

(** The first loop over arrays that cover its indices. *)
Lemma bands_run (n : nat) :
  forall (k : nat) (rs : RenderState),
    (k + n <= length (density G))%nat ->
    (k + n <= length (bearing_cap G))%nat ->
    exists rs' : RenderState,
      for_each (draw_band G st) (seq k n) rs = Ok rs' /\
      y rs' == y rs + of_depth n * pixels_per_cm /\
      ((0 < n)%nat ->
       g rs' = Some (if (k + n - 1 <? 4)%nat then black else white)) /\
      (((k <= first_uncompressed_layer st)%nat /\
        (first_uncompressed_layer st < k + n)%nat) ->
       first_uncompressed_layer_y rs'
         == y rs + of_depth (first_uncompressed_layer st - k) * pixels_per_cm) /\
      (~ ((k <= first_uncompressed_layer st)%nat /\
          (first_uncompressed_layer st < k + n)%nat) ->
       first_uncompressed_layer_y rs' = first_uncompressed_layer_y rs) /\
      length (drawings rs') = (length (drawings rs) + 4 * n)%nat.
Proof.
  induction n as [|n IH]; intros k rs Hd Hc.
  - exists rs. split; [reflexivity|]. split.
    { unfold of_depth. cbn. ring. }
    split; [lia|]. split; [lia|]. split; [reflexivity | lia].
  - destruct (draw_band_Ok k rs ltac:(lia) ltac:(lia))
      as (rs1 & Hband & Hy1 & Hf1 & Hg1 & _ & _ & Hlen1).
    destruct (IH (S k) rs1 ltac:(lia) ltac:(lia))
      as (rs' & Hrun & Hy & Hg & Hfin & Hfout & Hlen).
    exists rs'. cbn [seq for_each]. rewrite Hband.
    split; [exact Hrun|]. split.
    { rewrite Hy, Hy1. unfold of_depth.
      rewrite Nat2Z.inj_succ, <- Z.add_1_r, inject_Z_plus. ring. }
    split.
    { intros _. destruct n as [|n].
      - cbn [seq for_each] in Hrun. injection Hrun as <-.
        rewrite Hg1. replace (k + 1 - 1)%nat with k by lia. reflexivity.
      - rewrite Hg by lia. replace (S k + S n - 1)%nat with (k + S (S n) - 1)%nat by lia.
        reflexivity. }
    split.
    { intros [Hlo Hhi].
      destruct (Nat.eq_dec k (first_uncompressed_layer st)) as [Heq|Hne].
      - rewrite Hfout by lia. rewrite Hf1.
        apply Nat.eqb_eq in Heq as Heqb. rewrite Heqb.
        rewrite <- Heq, Nat.sub_diag. unfold of_depth. cbn. ring.
      - rewrite Hfin by lia. rewrite Hy1.
        replace (first_uncompressed_layer st - k)%nat
          with (S (first_uncompressed_layer st - S k)) by lia.
        unfold of_depth.
        rewrite Nat2Z.inj_succ, <- Z.add_1_r, inject_Z_plus. ring. }
    split.
    { intros Hout. rewrite Hfout by lia. rewrite Hf1.
      destruct (Nat.eqb_spec k (first_uncompressed_layer st)) as [Heq|Hne];
        [exfalso; apply Hout; lia | reflexivity]. }
    rewrite Hlen, Hlen1. lia.
Qed.

(** The first loop over arrays that do not: the first index out of
    range stops it. *)
Lemma bands_short (indices : list nat) :
  forall rs : RenderState,
    (exists i, In i indices /\
       ((length (density G) <= i)%nat \/ (length (bearing_cap G) <= i)%nat)) ->
    for_each (draw_band G st) indices rs = Raised IndexError.
Proof.
  induction indices as [|i rest IH]; intros rs (j & Hin & Hj).
  - contradiction.
  - cbn [for_each].
    destruct (le_lt_dec (length (density G)) i) as [Hd|Hd];
      [rewrite draw_band_short by (left; exact Hd); reflexivity|].
    destruct (le_lt_dec (length (bearing_cap G)) i) as [Hc|Hc];
      [rewrite draw_band_short by (right; exact Hc); reflexivity|].
    destruct (draw_band_Ok i rs Hd Hc) as (rs1 & Hband & _).
    rewrite Hband. apply IH. exists j. split; [|exact Hj].
    destruct Hin as [<-|Hin]; [lia | exact Hin].
Qed.

(** The first loop as the script runs it. *)
Lemma draw_profile_Ok :
  (12 <= length (density G))%nat ->
  (12 <= length (bearing_cap G))%nat ->
  exists rs : RenderState,
    draw_profile G st = Ok rs /\
    g rs = Some white /\
    ((first_uncompressed_layer st < 12)%nat ->
     first_uncompressed_layer_y rs
       == ground_level + of_depth (first_uncompressed_layer st) * pixels_per_cm) /\
    ((12 <= first_uncompressed_layer st)%nat ->
     first_uncompressed_layer_y rs = 0) /\
    length (drawings rs) = 48%nat.
Proof.
  intros Hd Hc. unfold draw_profile, range.
  match goal with |- context [for_each _ _ ?rs0] => set (rs0' := rs0) end.
  destruct (bands_run 12 0 rs0' ltac:(lia) ltac:(lia))
    as (rs & Hrun & _ & Hg & Hfin & Hfout & Hlen).
  exists rs. split; [exact Hrun|]. split; [apply Hg; lia|]. split.
  { intros Hlt. rewrite Hfin by lia. rewrite Nat.sub_0_r. reflexivity. }
  split.
  { intros Hge. rewrite Hfout by lia. reflexivity. }
  rewrite Hlen. reflexivity.
Qed.

(** One compressed layer. *)
Lemma draw_compressed_layer_Ok (pressure_range image_x_center : Q)
    (i : nat) (rs : RenderState) (layer : CompressedLayer) (c : Color) :
  nth_error (compressed_layers st) i = Some layer ->
  g rs = Some c ->
  ~ pressure_range == 0 ->
  draw_compressed_layer st pressure_range image_x_center i rs
  = Ok {| y := y rs + layer_thickness layer * pixels_per_cm;
          first_uncompressed_layer_y := first_uncompressed_layer_y rs;
          g := g rs;
          first_layer_width :=
            (if (i =? 0)%nat then layer_edge layer * pixels_per_cm
             else first_layer_width rs);
          first_layer_left_edge :=
            (if (i =? 0)%nat
             then image_x_center - layer_edge layer * pixels_per_cm / 2
             else first_layer_left_edge rs);
          drawings :=
            drawings rs
              ++ [TextAt (image_x_center - 100) (y rs + 30)
                    (PressureLabel (layer_pressure layer)) c;
                  Rectangle
                    (y rs, image_x_center - layer_edge layer * pixels_per_cm / 2)
                    (layer_thickness layer * pixels_per_cm,
                     layer_edge layer * pixels_per_cm)
                    ((layer_pressure layer - min_pressure st) / pressure_range,
                     0.0, 0.0)] |}.
Proof.
  intros Hl Hg Hnz. unfold draw_compressed_layer, bind, py_index.
  rewrite Hl, Hg, (py_div_Ok _ _ Hnz). reflexivity.
Qed.

Lemma draw_compressed_layer_zero (pressure_range image_x_center : Q)
    (i : nat) (rs : RenderState) (c : Color) :
  (i < length (compressed_layers st))%nat ->
  g rs = Some c ->
  pressure_range == 0 ->
  draw_compressed_layer st pressure_range image_x_center i rs
  = Raised ZeroDivisionError.
Proof.
  intros Hi Hg Hz. unfold draw_compressed_layer, bind, py_index, py_div.
  destruct (nth_error (compressed_layers st) i) as [layer|] eqn:El;
    [|apply nth_error_None in El; lia].
  rewrite Hg. apply Qeq_bool_iff in Hz. now rewrite Hz.
Qed.

(** The second loop, from the layer [k] on. *)
Lemma layers_drawn (c : Color) (n : nat) :
  ~ max_pressure st - min_pressure st == 0 ->
  forall (k : nat) (rs : RenderState),
    (k + n <= length (compressed_layers st))%nat ->
    g rs = Some c ->
    exists rs' : RenderState,
      for_each (draw_compressed_layer st (max_pressure st - min_pressure st)
                  (image_width / 2)) (seq k n) rs = Ok rs' /\
      y rs' == y rs
               + Qsum (map (fun j => layer_thickness (nth j (compressed_layers st) (0, 0, 0)))
                         (seq k n)) * pixels_per_cm /\
      first_uncompressed_layer_y rs' = first_uncompressed_layer_y rs /\
      g rs' = g rs /\
      (k = 0%nat -> (0 < n)%nat ->
       first_layer_width rs'
         = layer_edge (nth 0 (compressed_layers st) (0, 0, 0)) * pixels_per_cm /\
       first_layer_left_edge rs'
         = image_width / 2
           - layer_edge (nth 0 (compressed_layers st) (0, 0, 0)) * pixels_per_cm / 2) /\
      ((0 < k)%nat \/ n = 0%nat ->
       first_layer_width rs' = first_layer_width rs /\
       first_layer_left_edge rs' = first_layer_left_edge rs) /\
      exists ds : list Drawing,
        drawings rs' = drawings rs ++ ds /\
        length ds = (2 * n)%nat /\
        Forall (drawn_for_layer st) ds /\
        rectangle_reds ds
          = map (fun j =>
                   (layer_pressure (nth j (compressed_layers st) (0, 0, 0))
                    - min_pressure st)
                   / (max_pressure st - min_pressure st))
                (seq k n).
Proof.
  intros Hnz. induction n as [|n IH]; intros k rs Hlen Hg.
  - exists rs. split; [reflexivity|]. split.
    { unfold Qsum. cbn. ring. }
    split; [reflexivity|]. split; [reflexivity|]. split; [lia|].
    split; [tauto|]. exists []. rewrite app_nil_r. repeat split. constructor.
  - destruct (nth_error (compressed_layers st) k) as [layer|] eqn:El;
      [|apply nth_error_None in El; lia].
    pose proof (draw_compressed_layer_Ok _ (image_width / 2) k rs layer c El Hg Hnz)
      as Hstep.
    assert (Hnth : nth k (compressed_layers st) (0, 0, 0) = layer)
      by (apply nth_error_nth; exact El).
    match type of Hstep with _ = Ok ?r => set (rs1 := r) in * end.
    destruct (IH (S k) rs1 ltac:(lia) Hg)
      as (rs' & Hrun & Hy & Hf & Hg' & _ & Hkeep & ds & Hds & Hlen' & Hall & Hreds).
    exists rs'. cbn [seq for_each]. rewrite Hstep.
    split; [exact Hrun|]. split.
    { rewrite Hy. cbn [map]. unfold Qsum. cbn [fold_right y rs1].
      rewrite Hnth. ring. }
    split; [exact Hf|]. split; [exact Hg'|]. split.
    { intros -> _. destruct (Hkeep ltac:(lia)) as [Hw Hl].
      rewrite Hw, Hl. cbn [first_layer_width first_layer_left_edge rs1 Nat.eqb].
      rewrite Hnth. split; reflexivity. }
    split.
    { intros [Hk|Hn]; [|lia]. destruct (Hkeep ltac:(lia)) as [Hw Hl].
      rewrite Hw, Hl. cbn [first_layer_width first_layer_left_edge rs1].
      destruct (Nat.eqb_spec k 0); [lia|]. split; reflexivity. }
    eexists. split.
    { rewrite Hds. cbn [drawings rs1]. rewrite <- app_assoc. reflexivity. }
    split; [rewrite length_app, Hlen'; cbn; lia|].
    apply nth_error_In in El. split.
    { apply Forall_app. split; [|exact Hall].
      constructor; [|constructor; [|constructor]].
      + exists layer. split; [exact El | reflexivity].
      + exists layer. split; [exact El|]. repeat split. }
    cbn [rectangle_reds flat_map app seq map]. fold (rectangle_reds ds).
    rewrite Hreds, Hnth. reflexivity.
Qed.

(** The second loop as the script runs it, when its division does not
    fail. *)
Lemma draw_compressed_Ok (rs : RenderState) (c : Color) :
  g rs = Some c ->
  compressed_layers st = [] \/ ~ max_pressure st - min_pressure st == 0 ->
  exists rs' : RenderState,
    draw_compressed st rs = Ok rs' /\
    y rs' == ground_level
             + (total_compression st
                + Qsum (map layer_thickness (compressed_layers st))) * pixels_per_cm /\
    first_uncompressed_layer_y rs' = first_uncompressed_layer_y rs /\
    (forall layer0, hd_error (compressed_layers st) = Some layer0 ->
       first_layer_width rs' = layer_edge layer0 * pixels_per_cm /\
       first_layer_left_edge rs'
         = image_width / 2 - layer_edge layer0 * pixels_per_cm / 2) /\
    (compressed_layers st = [] ->
       first_layer_width rs' = 0 /\ first_layer_left_edge rs' = 0) /\
    exists ds : list Drawing,
      drawings rs' = drawings rs ++ ds /\
      length ds = (2 * length (compressed_layers st))%nat /\
      Forall (drawn_for_layer st) ds /\
      rectangle_reds ds
        = map (fun l =>
                 (layer_pressure l - min_pressure st)
                 / (max_pressure st - min_pressure st))
              (compressed_layers st).
Proof.
  intros Hg Hcase. unfold draw_compressed, range.
  match goal with |- context [for_each _ _ ?r] => set (rs0 := r) end.
  destruct (compressed_layers st) as [|layer0 rest] eqn:Elayers.
  - exists rs0. split; [reflexivity|]. split.
    { unfold Qsum. cbn. ring. }
    split; [reflexivity|]. split; [intros layer0 H; discriminate|].
    split; [intros _; split; reflexivity|].
    exists []. rewrite app_nil_r. repeat split. constructor.
  - destruct Hcase as [H|Hnz]; [discriminate|].
    rewrite <- Elayers.
    destruct (layers_drawn c (length (compressed_layers st)) Hnz 0 rs0
                (Nat.le_refl _) Hg)
      as (rs' & Hrun & Hy & Hf & _ & Hfirst & _ & ds & Hds & Hlen & Hall & Hreds).
    exists rs'. split; [exact Hrun|]. split.
    { rewrite Hy. rewrite (map_nth_seq layer_thickness). cbn [y rs0]. ring. }
    split; [exact Hf|]. split.
    { intros l0 Hl0. rewrite Elayers in Hl0. injection Hl0 as <-.
      destruct (Hfirst eq_refl) as [Hw Hl]; [rewrite Elayers; cbn; lia|].
      rewrite Hw, Hl, Elayers. split; reflexivity. }
    split; [rewrite Elayers; intros H; discriminate|].
    exists ds. split; [exact Hds|]. split; [exact Hlen|]. split; [exact Hall|].
    rewrite Hreds.
    exact (map_nth_seq
             (fun l => (layer_pressure l - min_pressure st)
                       / (max_pressure st - min_pressure st))
             (compressed_layers st) (0, 0, 0)).
Qed.

Lemma draw_compressed_zero (rs : RenderState) (c : Color) :
  g rs = Some c ->
  compressed_layers st <> [] ->
  max_pressure st - min_pressure st == 0 ->
  draw_compressed st rs = Raised ZeroDivisionError.
Proof.
  intros Hg Hne Hz. unfold draw_compressed, range.
  destruct (compressed_layers st) as [|layer0 rest] eqn:Elayers; [contradiction|].
  rewrite <- Elayers.
  assert (Hlen : length (compressed_layers st) = S (length rest))
    by (rewrite Elayers; reflexivity).
  rewrite Hlen. cbn [seq for_each].
  rewrite (draw_compressed_layer_zero _ _ 0 _ c); [reflexivity | lia | exact Hg | exact Hz].
Qed.

(** The labels on the wheel leave the other variables and add one text
    each. *)
Lemma write_labels_spec (x spacing : Q) (labels : list Label) :
  forall rs : RenderState,
    let rs' := write_labels x spacing labels rs in
    first_uncompressed_layer_y rs' = first_uncompressed_layer_y rs /\
    first_layer_width rs' = first_layer_width rs /\
    first_layer_left_edge rs' = first_layer_left_edge rs /\
    exists ds : list Drawing,
      drawings rs' = drawings rs ++ ds /\
      length ds = length labels /\
      Forall (fun d => exists y0 label, d = TextAt x y0 label white) ds.
Proof.
  induction labels as [|label rest IH]; intros rs; cbv zeta.
  - cbn. repeat split. exists []. rewrite app_nil_r. repeat split. constructor.
  - cbn [write_labels].
    match goal with |- context [write_labels _ _ _ ?r] => set (rs1 := r) end.
    destruct (IH rs1) as (Hf & Hw & Hl & ds & Hds & Hlen & Hall).
    split; [exact Hf|]. split; [exact Hw|]. split; [exact Hl|].
    eexists. split.
    { rewrite Hds. cbn [drawings rs1]. rewrite <- app_assoc. reflexivity. }
    split; [cbn; now rewrite Hlen|].
    constructor; [|exact Hall]. eexists. eexists. reflexivity.
Qed.

End RenderingFacts.

(** ** The pressures and the sinkage that the rendering reads *)


Lemma Qsum_bounds (lo hi : Q) (l : list Q) :
  Forall (fun x => lo <= x /\ x <= hi) l ->
  lo * of_depth (length l) <= Qsum l /\ Qsum l <= hi * of_depth (length l).
Proof.
  induction 1 as [|x l [Hlo Hhi] _ [IHlo IHhi]].
  - cbn [length]. change (of_depth 0) with 0. unfold Qsum. cbn [fold_right].
    split; lra.
  - cbn [length]. unfold Qsum in *. cbn [fold_right].
    unfold of_depth in *. rewrite Nat2Z.inj_succ, <- Z.add_1_r, inject_Z_plus.
    change (inject_Z 1) with 1.
    set (s := fold_right Qplus 0 l) in *.
    set (len := inject_Z (Z.of_nat (length l))) in *.
    clearbody s len. split; nra.
Qed.

Lemma fold_update_max_const (p : nat -> Q) (c : nat) :
  0 < p 0%nat ->
  (forall j, p j == p 0%nat) ->
  fold_left update_max (map p (seq 0 (S c))) 0 = p 0%nat.
Proof.
  intros Hpos Heq. induction c as [|c IH].
  - cbn. unfold update_max. apply Qlt_bool_iff in Hpos. now rewrite Hpos.
  - rewrite seq_S, map_app, fold_left_app, IH. cbn [map fold_left Nat.add].
    unfold update_max.
    destruct (Qlt_bool (p 0%nat) (p (S c))) eqn:E; [|reflexivity].
    apply Qlt_bool_iff in E. rewrite (Heq (S c)) in E.
    exfalso. exact (Qlt_irrefl _ E).
Qed.

Lemma fold_update_min_const (p : nat -> Q) (c : nat) :
  p 0%nat < 10000 ->
  (forall j, p j == p 0%nat) ->
  fold_left update_min (map p (seq 0 (S c))) 10000 = p 0%nat.
Proof.
  intros Hlt Heq. induction c as [|c IH].
  - cbn. unfold update_min. apply Qlt_bool_iff in Hlt. now rewrite Hlt.
  - rewrite seq_S, map_app, fold_left_app, IH. cbn [map fold_left Nat.add].
    unfold update_min.
    destruct (Qlt_bool (p (S c)) (p 0%nat)) eqn:E; [|reflexivity].
    apply Qlt_bool_iff in E. rewrite (Heq (S c)) in E.
    exfalso. exact (Qlt_irrefl _ E).
Qed.

Section FinishedRun.

Variable G : Globals.
Variable st : LoopState.
Hypothesis Hrun : compress G = Ok st.


Hypothesis Hwidth : 0 < wheel_width (vehicle G).
Hypothesis Hcaps : forall k c, nth_error (bearing_cap G) k = Some c -> 0 <= c.

(** A collapsed layer shows a positive load. *)
Lemma collapse_shows_load :
  0 <= force_spread G ->
  compressed_layers st <> [] ->
  0 < force_per_wheel G /\ 0 < pressure_at G 0.
Proof.
  intros Hs Hne.
  destruct (for_depths_inv G (max_depth G) 0 (initial_state G) st
              (entry_state_initial G) Hrun) as (m & _ & [_ Hlayers] & Hcoll & _).
  assert (Hpos : (0 < m)%nat).
  { destruct m; [|lia]. rewrite Hlayers in Hne. now contradiction Hne. }
  destruct (Hcoll 0%nat ltac:(lia)) as (_ & _ & c & Hc & Hlt).
  pose proof (Hcaps _ _ Hc) as Hc0.
  assert (Hp : 0 < pressure_at G 0) by lra.
  split; [|exact Hp].
  pose proof (edge_at_positive G 0 Hwidth Hs) as He.
  unfold pressure_at in Hp. rewrite Qsquare in Hp.
  set (a := edge_at G 0) in *. set (f := force_per_wheel G) in *. clearbody a f.
  assert (Haa : 0 < a * a) by nra.
  destruct (Qlt_le_dec 0 f) as [Hpos'|Hneg]; [exact Hpos'|].
  exfalso. apply (Qlt_not_le _ _ Hp).
  apply Qle_shift_div_r; [exact Haa | lra].
Qed.

(** Under a positive spread every recorded pressure lies between
    [min_pressure] and [max_pressure], and the two differ as soon as the
    loop has computed two downward forces. *)
Lemma recorded_pressures_between :
  0 < force_spread G ->
  forall l, In l (compressed_layers st) ->
    min_pressure st <= layer_pressure l /\ layer_pressure l <= max_pressure st.
Proof.
  intros Hs l Hl.
  assert (Hne : compressed_layers st <> []) by (intros E; rewrite E in Hl; exact Hl).
  destruct (pressure_extremes G st Hwidth Hs Hcaps Hrun Hne) as (Hmax & Hbreak & Hend).
  destruct (collapse_shows_load (Qlt_le_weak _ _ Hs) Hne) as [Hf _].
  destruct (for_depths_inv G (max_depth G) 0 (initial_state G) st
              (entry_state_initial G) Hrun) as (m & Hm & [_ Hlayers] & _ & Hcase).
  assert (Hlen : length (compressed_layers st) = m)
    by (rewrite Hlayers, length_map, length_seq; reflexivity).
  rewrite Hlen in Hbreak, Hend.
  rewrite Hlayers in Hl. apply in_map_iff in Hl as (k & <- & Hk). apply in_seq in Hk.
  cbn [layer_pressure layer_at snd]. split.
  - destruct (Nat.eq_dec m (max_depth G)) as [Heq|Hneq].
    + rewrite (Hend Heq).
      apply Qle_trans with (pressure_at G (m - 1)); [apply update_min_le_r|].
      destruct (Nat.eq_dec k (m - 1)) as [->|Hne']; [apply Qle_refl|].
      apply Qlt_le_weak, pressure_at_decreasing; try assumption. lia.
    + rewrite (Hbreak ltac:(lia)).
      apply Qle_trans with (pressure_at G m); [apply update_min_le_r|].
      apply Qlt_le_weak, pressure_at_decreasing; try assumption. lia.
  - rewrite Hmax. change (force_per_wheel G / wheel_width (vehicle G) ^ 2)
      with (pressure_at G 0).
    destruct (Nat.eq_dec k 0) as [->|Hne']; [apply Qle_refl|].
    apply Qlt_le_weak, pressure_at_decreasing; try assumption. lia.
Qed.


(** Without spread every downward force is the one of depth 0, and the
    two extremes coincide when a layer has collapsed under a pressure
    below the initial 10000. *)
Lemma pressure_at_without_spread (k : nat) :
  force_spread G == 0 -> pressure_at G k == pressure_at G 0.
Proof.
  intros Hs. unfold pressure_at. rewrite !Qsquare.
  rewrite (edge_at_closed_form G k), (edge_at_closed_form G 0), Hs.
  unfold of_depth at 2. cbn [Z.of_nat].
  setoid_replace (wheel_width (vehicle G) + of_depth k * (2 * 0))
    with (wheel_width (vehicle G)) by ring.
  setoid_replace (wheel_width (vehicle G) + inject_Z 0 * (2 * 0))
    with (wheel_width (vehicle G)) by ring.
  reflexivity.
Qed.

Lemma pressure_range_without_spread :
  force_spread G == 0 ->
  compressed_layers st <> [] ->
  pressure_at G 0 < 10000 ->
  max_pressure st - min_pressure st == 0.
Proof.
  intros Hs Hne Hsmall.
  assert (Hs' : 0 <= force_spread G) by (rewrite Hs; apply Qle_refl).
  destruct (collapse_shows_load Hs' Hne) as [_ Hp0].
  destruct (for_depths_inv G (max_depth G) 0 (initial_state G) st
              (entry_state_initial G) Hrun) as (m & Hm & [_ Hlayers] & _ & _).
  assert (Hlen : length (compressed_layers st) = m)
    by (rewrite Hlayers, length_map, length_seq; reflexivity).
  assert (Hpos : (0 < m)%nat).
  { destruct m; [|lia]. rewrite Hlayers in Hne. now contradiction Hne. }
  assert (Hinit : extremes_upto G 0 (initial_state G)) by (split; reflexivity).
  pose proof (for_depths_extremes G (max_depth G) 0 (initial_state G) st
                (entry_state_initial G) Hinit Hrun) as Hext.
  cbv zeta in Hext. rewrite Hlen in Hext.
  assert (Hconst : forall j, pressure_at G j == pressure_at G 0)
    by (intros j; apply pressure_at_without_spread; exact Hs).
  destruct Hext as [[_ [Hmax Hmin]]|[_ [Hmax Hmin]]].
  - rewrite (fold_update_max_const _ m Hp0 Hconst) in Hmax.
    rewrite (fold_update_min_const _ m Hsmall Hconst) in Hmin.
    rewrite Hmax, Hmin. ring.
  - destruct m as [|m']; [lia|].
    rewrite (fold_update_max_const _ m' Hp0 Hconst) in Hmax.
    rewrite (fold_update_min_const _ m' Hsmall Hconst) in Hmin.
    rewrite Hmax, Hmin. ring.
Qed.

End FinishedRun.

(** ** The script, rendering included *)

Lemma generated_globals (cfg : VehicleConfig) (spread : Q) (n : nat) (G : Globals) :
  globals cfg spread n = Ok G ->
  vehicle G = cfg /\
  force_spread G = spread /\
  max_depth G = n /\
  length (density G) = n /\
  length (bearing_cap G) = n /\
  (forall k c, nth_error (bearing_cap G) k = Some c -> 0 <= c) /\
  (forall k, (k < n)%nat ->
     nth k (density G) 0 = fst (density_and_bearing_cap_at_depth k)).
Proof.
  intros HG. apply globals_inv in HG as (Hveh & _ & Hspread & Hmax & Hden & Hcap).
  destruct (profile_lengths n) as [Hd Hc].
  split; [exact Hveh|]. split; [exact Hspread|]. split; [exact Hmax|].
  split; [now rewrite Hden|]. split; [now rewrite Hcap|]. split.
  - intros k c Hk. rewrite Hcap, profile_spec in Hk. cbn [snd] in Hk.
    apply nth_error_In, in_map_iff in Hk as (depth & <- & _).
    apply Qlt_le_weak, bearing_cap_positive.
  - intros k Hk. rewrite Hden. apply nth_error_nth.
    exact (proj1 (profile_nth n k Hk)).
Qed.

Lemma density_bounds (depth : nat) :
  1.1 <= fst (density_and_bearing_cap_at_depth depth) /\
  fst (density_and_bearing_cap_at_depth depth) < 1.89.
Proof.
  split.
  - apply Qle_trans with (fst (density_and_bearing_cap_at_depth 0)).
    + vm_compute. discriminate.
    + apply density_monotone. lia.
  - pose proof (of_depth_nonneg depth) as H.
    cbn [fst density_and_bearing_cap_at_depth].
    apply Qlt_shift_div_r; lra.
Qed.

(** The sinkage.  Every collapsed centimetre lowers the wheel by
    between 0.055 and 0.45 cm: [total_compression] lies between 0.055
    and 0.45 times the number of compressed layers. *)
Theorem sinkage_bounds
    (cfg : VehicleConfig) (spread : Q) (n : nat) (G : Globals) (st : LoopState) :
  simulate cfg spread n = Ok (G, st) ->
  0.055 * of_depth (length (compressed_layers st)) <= total_compression st /\
  total_compression st <= 0.45 * of_depth (length (compressed_layers st)).
Proof.
  intros Hsim. apply simulate_inv in Hsim as [HG Hrun].
  apply generated_globals in HG as (_ & _ & _ & Hlen & _ & _ & Hnth).
  assert (Hfold : total_compression st
            = fold_left (fun acc l => acc + layer_compression l) (compressed_layers st) 0.0)
    by (apply (for_depths_total G _ _ _ Hrun); reflexivity).
  rewrite Hfold, fold_left_Qsum.
  rewrite <- (length_map (fun x => 1.0 - layer_thickness x) (compressed_layers st)).
  apply Qsum_bounds.
  destruct (for_depths_inv G (max_depth G) 0 (initial_state G) st
              (entry_state_initial G) Hrun) as (m & _ & [_ Hlayers] & Hcoll & _).
  rewrite Hlayers, map_map. apply Forall_forall. intros x Hx.
  apply in_map_iff in Hx as (k & <- & Hk). apply in_seq in Hk.
  destruct (Hcoll k ltac:(lia)) as (_ & Hk' & _).
  cbn [layer_thickness layer_at fst snd]. rewrite Hnth by lia.
  destruct (density_bounds k) as [Hlo Hhi].
  set (d := fst (density_and_bearing_cap_at_depth k)) in *. clearbody d.
  assert (E : d / grain_density == d * 0.5) by (unfold grain_density; field).
  rewrite E. split; lra.
Qed.

Lemma sinkage_bounds_witness :
  simulate ppl 0.0875 1 = Ok (one_depth_globals, one_depth_state) /\
  0.055 * of_depth (length (compressed_layers one_depth_state))
    <= total_compression one_depth_state /\
  total_compression one_depth_state
    <= 0.45 * of_depth (length (compressed_layers one_depth_state)).
Proof.
  split; [vm_compute; reflexivity|].
  apply (sinkage_bounds ppl 0.0875 1 one_depth_globals one_depth_state).
  vm_compute. reflexivity.
Defined.

(** The extremes kept for the display.  After a run that collapsed a
    layer, under a positive wheel width and a positive spread,
    [max_pressure] is the downward force of depth 0.  [min_pressure] is
    the last downward force computed (at the depth where the loop left,
    or at the last depth of the profile) if that is below 10000, and
    the initial 10000 if not; it is never above a recorded pressure. *)
Theorem extremes_of_a_run
    (cfg : VehicleConfig) (spread : Q) (n : nat) (G : Globals) (st : LoopState) :
  simulate cfg spread n = Ok (G, st) ->
  0 < wheel_width cfg ->
  0 < spread ->
  compressed_layers st <> [] ->
  let m := length (compressed_layers st) in
  max_pressure st = force_per_wheel G / wheel_width cfg ^ 2 /\
  ((m < n)%nat -> min_pressure st = update_min 10000 (pressure_at G m)) /\
  (m = n -> min_pressure st = update_min 10000 (pressure_at G (m - 1))) /\
  (forall l, In l (compressed_layers st) ->
     min_pressure st <= layer_pressure l /\ layer_pressure l <= max_pressure st).
Proof.
  intros Hsim Hw Hs Hne. apply simulate_inv in Hsim as [HG Hrun].
  apply generated_globals in HG as (Hveh & Hspread & Hmax & _ & _ & Hcaps & _).
  rewrite <- Hveh in Hw |- *. rewrite <- Hspread in Hs. rewrite <- Hmax.
  destruct (pressure_extremes G st Hw Hs Hcaps Hrun Hne) as (H1 & H2 & H3).
  cbv zeta. split; [exact H1|]. split; [exact H2|]. split; [exact H3|].
  exact (recorded_pressures_between G st Hrun Hw Hcaps Hs).
Qed.

Lemma extremes_of_a_run_witness :
  simulate ppl 0.0875 1 = Ok (one_depth_globals, one_depth_state) /\
  0 < wheel_width ppl /\
  0 < 0.0875 /\
  compressed_layers one_depth_state <> [] /\
  max_pressure one_depth_state = force_per_wheel one_depth_globals / wheel_width ppl ^ 2 /\
  ((length (compressed_layers one_depth_state) < 1)%nat ->
   min_pressure one_depth_state
   = update_min 10000
       (pressure_at one_depth_globals (length (compressed_layers one_depth_state)))) /\
  (length (compressed_layers one_depth_state) = 1%nat ->
   min_pressure one_depth_state
   = update_min 10000
       (pressure_at one_depth_globals (length (compressed_layers one_depth_state) - 1))) /\
  (forall l, In l (compressed_layers one_depth_state) ->
     min_pressure one_depth_state <= layer_pressure l /\
     layer_pressure l <= max_pressure one_depth_state).
Proof.
  split; [vm_compute; reflexivity|]. split; [reflexivity|]. split; [reflexivity|].
  split; [discriminate|].
  apply (extremes_of_a_run ppl 0.0875 1 one_depth_globals one_depth_state);
    [vm_compute; reflexivity | reflexivity | reflexivity | discriminate].
Defined.

Lemma support_persists_below_witness :
  globals ppl 0.0875 30
  = Ok {| vehicle := ppl; force_per_wheel := 6000 * lunar_gravity / 4;
          force_spread := 0.0875; max_depth := 30;
          density := fst (profile 30); bearing_cap := snd (profile 30) |} /\
  supported_at
    {| vehicle := ppl; force_per_wheel := 6000 * lunar_gravity / 4;
       force_spread := 0.0875; max_depth := 30;
       density := fst (profile 30); bearing_cap := snd (profile 30) |} 20.
Proof.
  assert (HG : globals ppl 0.0875 30
               = Ok {| vehicle := ppl; force_per_wheel := 6000 * lunar_gravity / 4;
                       force_spread := 0.0875; max_depth := 30;
                       density := fst (profile 30); bearing_cap := snd (profile 30) |})
    by (apply globals_Ok; discriminate).
  split; [exact HG|].
  apply (support_persists_below ppl 0.0875 30 _ 9 20 HG);
    [reflexivity | discriminate | | lia | lia].
  split; [discriminate|].
  eexists. split; [vm_compute; reflexivity | vm_compute; discriminate].
Defined.

Lemma draw_profile_inv (G : Globals) (st : LoopState) (rs : RenderState) :
  draw_profile G st = Ok rs ->
  (12 <= length (density G))%nat /\ (12 <= length (bearing_cap G))%nat.
Proof.
  intros Hp.
  destruct (le_lt_dec 12 (length (density G))) as [Hd|Hd];
    [destruct (le_lt_dec 12 (length (bearing_cap G))) as [Hc|Hc]; [split; assumption|]|];
    exfalso; unfold draw_profile in Hp;
    rewrite bands_short in Hp; try discriminate;
    exists 11%nat; (split; [unfold range; apply in_seq; lia | lia]).
Qed.

Lemma draw_compressed_inv (st : LoopState) (rs rs' : RenderState) (c : Color) :
  g rs = Some c ->
  draw_compressed st rs = Ok rs' ->
  compressed_layers st = [] \/ ~ max_pressure st - min_pressure st == 0.
Proof.
  intros Hg Hc.
  destruct (compressed_layers st) as [|l rest] eqn:El; [left; reflexivity|].
  right. intros Hz.
  rewrite (draw_compressed_zero st rs c Hg) in Hc; [discriminate | | exact Hz].
  rewrite El. discriminate.
Qed.









(** Without spread the rendering fails.  When the spread factor is 0
    and a layer has collapsed under a pressure below 10000, every
    downward force is the same, [max_pressure] and [min_pressure]
    coincide, and the first red of the second loop divides by zero. *)
Theorem zero_spread_stops_rendering
    (cfg : VehicleConfig) (spread : Q) (n : nat) (G : Globals) (st : LoopState) :
  simulate cfg spread n = Ok (G, st) ->
  spread == 0 ->
  0 < wheel_width cfg ->
  (12 <= n)%nat ->
  compressed_layers st <> [] ->
  force_per_wheel G / wheel_width cfg ^ 2 < 10000 ->
  simulate_and_render cfg spread n = Raised ZeroDivisionError.
Proof.
  intros Hsim Hs Hw Hge Hne Hsmall.
  unfold simulate_and_render, bind. rewrite Hsim. cbn [fst snd].
  apply simulate_inv in Hsim as [HG Hrun].
  apply generated_globals in HG as (Hveh & Hspread & Hmax & Hld & Hlc & Hcaps & _).
  rewrite <- Hveh in Hw, Hsmall. rewrite <- Hspread in Hs.
  destruct (draw_profile_Ok G st ltac:(lia) ltac:(lia)) as (rs1 & Hp & Hg & _).
  unfold render, bind. rewrite Hp.
  rewrite (draw_compressed_zero st rs1 white Hg Hne); [reflexivity|].
  exact (pressure_range_without_spread G st Hrun Hw Hcaps Hs Hne Hsmall).
Qed.

Lemma zero_spread_stops_rendering_witness :
  exists (G : Globals) (st : LoopState),
    simulate ppl 0 30 = Ok (G, st) /\
    0 == 0 /\
    0 < wheel_width ppl /\
    (12 <= 30)%nat /\
    length (compressed_layers st) = 12%nat /\
    force_per_wheel G / wheel_width ppl ^ 2 < 10000 /\
    simulate_and_render ppl 0 30 = Raised ZeroDivisionError.
Proof.
  eexists. eexists. split; [vm_compute; reflexivity|].
  split; [reflexivity|]. split; [reflexivity|]. split; [lia|].
  split; [reflexivity|]. split; [reflexivity|].
  eapply (zero_spread_stops_rendering ppl 0 30);
    [vm_compute; reflexivity | reflexivity | reflexivity | lia
    | discriminate | reflexivity].
Defined.




(** The marker line and the wheel.  The last drawings are the white
    marker line at [first_uncompressed_layer_y], the rectangle of the
    wheel from row 0 down to the sunken surface, and seven lines of
    text.  The wheel has the columns of the first compressed layer, so
    the width of the wheel in pixels, centred; when no layer collapsed
    nothing sets them, and the wheel rectangle has width 0 at column
    0. *)
Theorem marker_and_wheel_drawn
    (cfg : VehicleConfig) (spread : Q) (n : nat) (G : Globals) (st : LoopState)
    (rs : RenderState) :
  simulate cfg spread n = Ok (G, st) ->
  render G st = Ok rs ->
  (exists before labels : list Drawing,
     drawings rs
     = before
       ++ [LineSegment (first_uncompressed_layer_y rs) 0
             (first_uncompressed_layer_y rs) (image_width - 1) white;
           Rectangle (0, first_layer_left_edge rs)
             (ground_level + total_compression st * pixels_per_cm,
              first_layer_width rs)
             wheel_color]
       ++ labels /\
     length before = (48 + 2 * length (compressed_layers st))%nat /\
     length labels = 7%nat) /\
  (compressed_layers st <> [] ->
   first_layer_width rs = wheel_width cfg * pixels_per_cm /\
   first_layer_left_edge rs
     = image_width / 2 - wheel_width cfg * pixels_per_cm / 2) /\
  (compressed_layers st = [] ->
   first_layer_width rs = 0 /\ first_layer_left_edge rs = 0).
Proof.
  intros Hsim Hr. apply simulate_inv in Hsim as [HG Hrun].
  apply generated_globals in HG as (Hveh & _).
  unfold render, bind in Hr.
  destruct (draw_profile G st) as [rs1|] eqn:Hp; [|discriminate].
  destruct (draw_compressed st rs1) as [rs2|] eqn:Hc; [|discriminate].
  injection Hr as <-.
  destruct (draw_profile_inv G st rs1 Hp) as [Hld Hlc].
  destruct (draw_profile_Ok G st Hld Hlc) as (rs1' & Hp' & Hg & _ & _ & Hlen1).
  rewrite Hp in Hp'. injection Hp' as <-.
  pose proof (draw_compressed_inv st rs1 rs2 white Hg Hc) as Hcase.
  destruct (draw_compressed_Ok st rs1 white Hg Hcase)
    as (rs2' & Hc' & _ & _ & Hfirst & Hnone & ds & Hds & Hdlen & _).
  rewrite Hc in Hc'. injection Hc' as <-.
  unfold draw_wheel.
  match goal with |- context [write_labels ?x ?sp ?ls ?r] =>
    pose proof (write_labels_spec x sp ls r) as Hlabels;
    set (rs3 := r) in *;
    set (rsf := write_labels x sp ls rs3) in *
  end.
  cbv zeta in Hlabels.
  destruct Hlabels as (Hf & Hw & Hl & labels & Hdl & Hllen & _).
  cbn [first_uncompressed_layer_y first_layer_width first_layer_left_edge rs3]
    in Hf, Hw, Hl.
  split; [|split].
  - exists (drawings rs2), labels. split; [|split].
    + rewrite Hdl. cbn [drawings rs3]. rewrite Hf, Hw, Hl, <- app_assoc. reflexivity.
    + rewrite Hds, length_app, Hdlen, Hlen1. reflexivity.
    + rewrite Hllen. reflexivity.
  - intros Hne. rewrite Hw, Hl.
    destruct (for_depths_inv G (max_depth G) 0 (initial_state G) st
                (entry_state_initial G) Hrun) as (m & _ & [_ Hlayers] & _).
    destruct m as [|m']; [rewrite Hlayers in Hne; now contradiction Hne|].
    destruct (Hfirst (layer_at G 0)) as [H1 H2].
    { rewrite Hlayers. reflexivity. }
    rewrite H1, H2, <- Hveh. split; reflexivity.
  - intros Hnil. rewrite Hw, Hl. exact (Hnone Hnil).
Qed.

(** ** The rendering theorems at example runs *)




(** A vehicle light enough for the surface to carry it: no layer
    collapses, and the wheel rectangle has no width. *)
Lemma marker_and_wheel_drawn_witness :
  exists (G : Globals) (st : LoopState) (rs : RenderState),
    simulate {| vehicle_name := "Cart"; mass_of_vehicle := 1;
                wheel_width := 10; n_wheels := 4 |} 0.5 12 = Ok (G, st) /\
    render G st = Ok rs /\
    compressed_layers st = [] /\
    first_layer_width rs = 0 /\
    (exists before labels : list Drawing,
       drawings rs
       = before
         ++ [LineSegment (first_uncompressed_layer_y rs) 0
               (first_uncompressed_layer_y rs) (image_width - 1) white;
             Rectangle (0, first_layer_left_edge rs)
               (ground_level + total_compression st * pixels_per_cm,
                first_layer_width rs)
               wheel_color]
         ++ labels /\
       length before = (48 + 2 * length (compressed_layers st))%nat /\
       length labels = 7%nat) /\
    (compressed_layers st <> [] ->
     first_layer_width rs = 10 * pixels_per_cm /\
     first_layer_left_edge rs = image_width / 2 - 10 * pixels_per_cm / 2) /\
    (compressed_layers st = [] ->
     first_layer_width rs = 0 /\ first_layer_left_edge rs = 0).
Proof.
  eexists. eexists. eexists.
  split; [vm_compute; reflexivity|].
  split; [vm_compute; reflexivity|].
  split; [reflexivity|]. split; [reflexivity|].
  eapply (marker_and_wheel_drawn
            {| vehicle_name := "Cart"; mass_of_vehicle := 1;
               wheel_width := 10; n_wheels := 4 |} 0.5 12);
    vm_compute; reflexivity.
Defined.

Lemma gray_value_darkens_witness :
  (6 <= 7)%nat /\
  gray_value_for_depth 7 <= gray_value_for_depth 6 /\
  0 <= gray_value_for_depth 7 /\
  gray_value_for_depth 6 <= 0.9.
Proof.
  split; [lia|]. apply (gray_value_darkens 6 7). lia.
Defined.
